(** * delivery-api: the route layer over the document store

    A shallow embedding of the three revisions of [functions/index.js]:

    - [Inline]   the first revision, whose routes talk to the store directly
                 (first document of [src/functions/index.js]);
    - [AutoKey]  the revision with the helper creators and store-generated
                 document keys ([src/unnamed/part_000]);
    - [IdAlloc]  the revision with the [_counters] collection and the
                 auto-increment [nextId] (second document of
                 [src/functions/index.js]).

    Values are the JSON scalars a request body or a stored field can hold.
    Numbers are the integers, with exact arithmetic, [NaN], and the
    remaining numbers (fractions, infinities), which are told apart by
    their rendering and whose arithmetic is left to the runtime; the
    rounding of doubles is not represented.
    Every store call is a total function on the database: a store that
    cannot be reached is not represented.  Concurrency enters through the
    one place the code is sensitive to it, the transaction of [nextId],
    whose reads and commits are interleaved in [IdAlloc.run]. *)

From stdpp Require Import gmap strings list fin_maps.
From Stdlib Require Import ZArith DecimalString DecimalZ.

Local Open Scope Z_scope.

(* ===================================================================== *)
(** ** JavaScript values and coercions *)
(* ===================================================================== *)

Module Js.

(** A number: an integer, [NaN], or a number that is neither, named by
    what [String] renders it as (["13.75"], ["Infinity"]). *)
Inductive number :=
  | NInt (z : Z)
  | NNaN
  | NOther (rendering : string).

Inductive jsval :=
  | JUndefined
  | JNull
  | JBool (b : bool)
  | JNum (n : number)
  | JStr (s : string).

#[export] Instance number_eq_dec : EqDecision number.
Proof. solve_decision. Defined.

#[export] Instance jsval_eq_dec : EqDecision jsval.
Proof. solve_decision. Defined.

(** A plain object: property names to scalar values. *)
Abbreviation obj := (gmap string jsval).

(** [o.k]: a missing property reads as [undefined]. *)
Definition prop (o : obj) (k : string) : jsval := default JUndefined (o !! k).

(** [{ ...a, ...b }]: the properties of [b] win. *)
Definition spread (a b : obj) : obj := b ∪ a.

(** ToBoolean, as used by [!x], [x || y] and [x ? a : b]. *)
Definition truthy (v : jsval) : bool :=
  match v with
  | JUndefined | JNull => false
  | JBool b => b
  | JNum (NInt z) => negb (z =? 0)
  | JNum NNaN => false
  | JNum (NOther _) => true
  | JStr s => negb (String.eqb s "")
  end.

Definition falsy (v : jsval) : bool := negb (truthy v).

(** [a || b] *)
Definition js_or (a b : jsval) : jsval := if truthy a then a else b.

(** [a ?? b] *)
Definition js_coalesce (a b : jsval) : jsval :=
  match a with
  | JUndefined | JNull => b
  | _ => a
  end.

(** [v == null] *)
Definition loose_null (v : jsval) : bool :=
  match v with
  | JUndefined | JNull => true
  | _ => false
  end.

(** Number::toString; integers are rendered in decimal digits (the exponent
    form that takes over from 1e21 on is not represented). *)
Definition NumberToString (n : number) : string :=
  match n with
  | NInt z => NilZero.string_of_int (Z.to_int z)
  | NNaN => "NaN"
  | NOther rendering => rendering
  end.

(** [String(v)] *)
Definition ToString (v : jsval) : string :=
  match v with
  | JUndefined => "undefined"
  | JNull => "null"
  | JBool true => "true"
  | JBool false => "false"
  | JNum n => NumberToString n
  | JStr s => s
  end.

(** What is left to the runtime: the reading of a string as a number
    (ECMAScript StringToNumber, with its grammar of white space, signs,
    fractions, exponents and radix prefixes) and the sum of two numbers that
    are not both integers.  The development only relies on the runtime
    reading back the decimal rendering of an integer. *)
Class Runtime := {
  StringToNumber : string → number;
  float_add : number → number → number;
  StringToNumber_decimal : ∀ z, StringToNumber (NumberToString (NInt z)) = NInt z
}.

(** [typeof v] *)
Definition typeof (v : jsval) : string :=
  match v with
  | JUndefined => "undefined"
  | JNull => "object"
  | JBool _ => "boolean"
  | JNum _ => "number"
  | JStr _ => "string"
  end.

(** [Number(v)] *)
Definition ToNumber `{Runtime} (v : jsval) : number :=
  match v with
  | JUndefined => NNaN
  | JNull => NInt 0
  | JBool true => NInt 1
  | JBool false => NInt 0
  | JNum n => n
  | JStr s => StringToNumber s
  end.

Definition isNaN (n : number) : bool :=
  match n with
  | NNaN => true
  | NInt _ | NOther _ => false
  end.

(** [a + b] on numbers. *)
Definition num_add `{Runtime} (a b : number) : number :=
  match a, b with
  | NInt x, NInt y => NInt (x + y)
  | NNaN, _ | _, NNaN => NNaN
  | _, _ => float_add a b
  end.

(** [a !== b] on numbers: [NaN] differs from everything, itself included. *)
Definition num_strict_neq (a b : number) : bool :=
  match a, b with
  | NInt x, NInt y => negb (x =? y)
  | NOther r, NOther r' => negb (String.eqb r r')
  | _, _ => true
  end.

(** [a !== b] on strings. *)
Definition str_strict_neq (a b : string) : bool := negb (String.eqb a b).

(** The errors the helpers throw: [new Error(message)] with an optional
    [code] and [payload] attached afterwards. *)
Record js_error := JsError {
  message : string;
  code : option Z;
  payload : option obj
}.

(** [e.code || dflt] *)
Definition code_or (e : js_error) (dflt : Z) : Z :=
  match code e with
  | Some c => if c =? 0 then dflt else c
  | None => dflt
  end.

(** [e.payload || {}] *)
Definition payload_or_empty (e : js_error) : obj := default ∅ (payload e).

(** A runtime that knows the integers only: it reads optionally signed
    decimal digit strings and nothing else.  It serves to run the model on
    concrete requests. *)
Definition read_decimal (s : string) : number :=
  match NilZero.int_of_string s with
  | Some d => NInt (Z.of_int d)
  | None => NNaN
  end.

Definition decimal_runtime : Runtime.
Proof.
  refine {| StringToNumber := read_decimal; float_add := λ _ _, NNaN |}.
  intros z. unfold read_decimal, NumberToString.
  rewrite NilZero.isi.
  - now rewrite DecimalZ.of_to.
  - destruct z as [| p | p]; try discriminate.
    simpl. intros Hp. injection Hp as Hp.
    now apply DecimalPos.Unsigned.to_uint_nonnil in Hp.
  - destruct z as [| p | p]; try discriminate.
    simpl. intros Hp. injection Hp as Hp.
    now apply DecimalPos.Unsigned.to_uint_nonnil in Hp.
Defined.

End Js.

Export Js.

(* ===================================================================== *)
(** ** The document store *)
(* ===================================================================== *)

Module Firestore.

(** A document is a plain object, a collection maps document ids to
    documents, and the database maps collection names to collections. *)
Abbreviation doc := (gmap string jsval).
Abbreviation collection := (gmap string doc).
Abbreviation db := (gmap string collection).

(** [db.collection(name)]: a collection that was never written is empty. *)
Definition collection_of (name : string) (st : db) : collection :=
  default ∅ (st !! name).

(** [db.collection(name).doc(id).get()]: [None] is a snapshot with
    [exists = false], [Some d] one whose [data()] is [d]. *)
Definition doc_get (name id : string) (st : db) : option doc :=
  collection_of name st !! id.

(** [ref.set(data)]: creates the document or replaces it whole. *)
Definition doc_set (name id : string) (data : doc) (st : db) : db :=
  <[name := <[id := data]> (collection_of name st)]> st.

(** [ref.delete()] *)
Definition doc_delete (name id : string) (st : db) : db :=
  <[name := delete id (collection_of name st)]> st.

(** [query.where(field, "==", v).get()]: the documents whose [field] holds
    exactly [v].  Which of several matches comes first is the store's
    choice; the model lists them in the order of the map. *)
Definition where_eq (field : string) (v : jsval) (c : collection)
  : list (string * doc) :=
  filter (λ kd : string * doc, kd.2 !! field = Some v) (map_to_list c).

(** [.limit(n)] *)
Definition limit (n : nat) (docs : list (string * doc)) : list (string * doc) :=
  take n docs.

(** An awaited computation: it returns or throws, and leaves a database. *)
Inductive outcome (A : Type) :=
  | Return (a : A)
  | Throw (e : js_error).
Arguments Return {A} a.
Arguments Throw {A} e.

Definition M (A : Type) : Type := db → outcome A * db.

Definition ret {A} (a : A) : M A := λ st, (Return a, st).

Definition throw {A} (e : js_error) : M A := λ st, (Throw e, st).

Definition bind {A B} (c : M A) (k : A → M B) : M B := λ st,
  match c st with
  | (Return a, st') => k a st'
  | (Throw e, st') => (Throw e, st')
  end.

(** A synchronous call that may throw. *)
Definition lift {A} (o : outcome A) : M A := λ st, (o, st).

Definition write (f : db → db) : M unit := λ st, (Return (), f st).

Definition read {A} (f : db → A) : M A := λ st, (Return (f st), st).

(** [ref.update(patch)]: merges [patch] into the stored document; the
    client rejects an empty [patch], and the store a missing document. *)
Definition doc_update (name id : string) (patch : doc) : M unit := λ st,
  if decide (patch = ∅)
  then (Throw (JsError "At least one field must be updated." None None), st)
  else match doc_get name id st with
       | Some d => (Return (), doc_set name id (spread d patch) st)
       | None => (Throw (JsError "No document to update" None None), st)
       end.

(** What a handler hands to [res.json]: an object whose properties are
    scalars or, in the registration routes, whole records. *)
Inductive field :=
  | FVal (v : jsval)
  | FObj (o : obj).

Record response := Response {
  status : Z;
  body : gmap string field
}.

Definition flat (o : obj) : gmap string field := FVal <$> o.

(** [{ error: message }] *)
Definition error_body (msg : string) : gmap string field :=
  {[ "error" := FVal (JStr msg) ]}.

End Firestore.

Export Firestore.

Notation "'await' x ← c ; k" := (bind c (λ x, k))
  (at level 10, x name, c at level 100, k at level 200, only parsing).

(* ===================================================================== *)
(** ** The revision with the auto-increment counter *)
(* ===================================================================== *)

Module IdAlloc.

Definition USER_COL : string := "user".
Definition ADDR_COL : string := "user_address".
Definition RIDER_COL : string := "rider_car".
Definition COUNTERS : string := "_counters".

(** The value the transaction of [nextId] reads off the snapshot:
    [snap.exists ? Number(snap.data().value || 0) : 0]. *)
Definition current_of `{Runtime} (snap : option doc) : number :=
  match snap with
  | Some d => ToNumber (js_or (prop d "value") (JNum (NInt 0)))
  | None => NInt 0
  end.

(** The function [nextId] hands to [runTransaction]: from the snapshot
    that [tx.get(ref)] returns, the document it leaves under [ref]
    ([tx.set] of a fresh record, [tx.update] of the one read) and the value
    it returns. *)
Definition nextId_tx `{Runtime} (snap : option doc) : doc * number :=
  let current := current_of snap in
  let next := num_add current (NInt 1) in
  match snap with
  | None => ({[ "value" := JNum next ]}, next)
  | Some d => (spread d {[ "value" := JNum next ]}, next)
  end.

(** [db.runTransaction(fn)] for a function that reads and writes one
    document, when nothing interferes: the snapshot is the stored record and
    the commit puts the new document in its place. *)
Definition runTransaction {A} (name id : string) (fn : option doc → doc * A) : M A :=
  λ st, let '(staged, a) := fn (doc_get name id st) in
        (Return a, doc_set name id staged st).

(** [nextId(sequence)] *)
Definition nextId `{Runtime} (sequence : string) : M number :=
  runTransaction COUNTERS sequence nextId_tx.

Definition assertPhoneNotDuplicate (phone : jsval) : M unit := λ st,
  let snap :=
    limit 1 (where_eq "phone" (JStr (ToString phone)) (collection_of USER_COL st)) in
  match snap with
  | (id, data) :: _ =>
      (Throw {| message := "phone already exists";
                code := Some 409;
                payload := Some (spread {[ "id" := JStr id ]} data) |}, st)
  | [] => (Return (), st)
  end.

Definition normalizeRoleInt `{Runtime} (role : jsval) : outcome number :=
  let r := ToNumber (js_coalesce role (JNum (NInt 0))) in
  if num_strict_neq r (NInt 0) && num_strict_neq r (NInt 1)
  then Throw {| message := "role must be 0 or 1"; code := Some 400; payload := None |}
  else Return r.

Definition createUser `{Runtime} (name password phone picture role : jsval)
  : M obj :=
  if falsy name || falsy password || falsy phone
  then throw {| message := "name, password, phone are required";
                code := Some 400; payload := None |}
  else
    await roleInt ← lift (normalizeRoleInt role);
    await _ ← assertPhoneNotDuplicate phone;
    await idNum ← nextId "user_seq";
    let id := ToString (JNum idNum) in
    let data : obj :=
      {[ "user_id" := JNum idNum;
         "name" := JStr (ToString name);
         "password" := JStr (ToString password);
         "phone" := JStr (ToString phone);
         "picture" := if truthy picture then JStr (ToString picture) else JNull;
         "role" := JNum roleInt ]} in
    await _ ← write (doc_set USER_COL id data);
    ret (spread {[ "id" := JStr id ]} data).

Definition createAddress `{Runtime} (user_id address lat lng : jsval) : M obj :=
  if falsy user_id || falsy address
  then throw {| message := "user_id and address are required";
                code := Some 400; payload := None |}
  else
    await addrIdNum ← nextId "address_seq";
    let addrId := ToString (JNum addrIdNum) in
    let payload : obj :=
      {[ "address_id" := JNum addrIdNum;
         "user_id" := if isNaN (ToNumber user_id)
                      then JStr (ToString user_id)
                      else JNum (ToNumber user_id);
         "address" := JStr (ToString address);
         "lat" := if loose_null lat then JNull else JNum (ToNumber lat);
         "lng" := if loose_null lng then JNull else JNum (ToNumber lng) ]} in
    await _ ← write (doc_set ADDR_COL addrId payload);
    ret (spread {[ "id" := JStr addrId ]} payload).

Definition createRiderCar `{Runtime} (user_id image_car plate_number car_type : jsval)
  : M obj :=
  if falsy user_id || falsy plate_number || falsy car_type
  then throw {| message := "user_id, plate_number, car_type are required";
                code := Some 400; payload := None |}
  else
    await riderIdNum ← nextId "rider_seq";
    let riderId := ToString (JNum riderIdNum) in
    let payload : obj :=
      {[ "rider_id" := JNum riderIdNum;
         "user_id" := if isNaN (ToNumber user_id)
                      then JStr (ToString user_id)
                      else JNum (ToNumber user_id);
         "image_car" := if truthy image_car then JStr (ToString image_car) else JNull;
         "plate_number" := JStr (ToString plate_number);
         "car_type" := JStr (ToString car_type) ]} in
    await _ ← write (doc_set RIDER_COL riderId payload);
    ret (spread {[ "id" := JStr riderId ]} payload).

(** The [catch] of the registration routes:
    [res.status(e.code || 400).json({ error: e.message, ...(e.payload || {}) })]. *)
Definition catch_register (e : js_error) : response :=
  {| status := code_or e 400;
     body := flat (spread {[ "error" := JStr (message e) ]} (payload_or_empty e)) |}.

(** [POST /register/user] *)
Definition register_user `{Runtime} (body : obj) (st : db) : response * db :=
  match createUser (prop body "name") (prop body "password") (prop body "phone")
                   (prop body "picture") (JNum (NInt 0)) st with
  | (Return user, st') => ({| status := 201; body := {[ "user" := FObj user ]} |}, st')
  | (Throw e, st') => (catch_register e, st')
  end.

(** [POST /register/rider] *)
Definition register_rider `{Runtime} (body : obj) (st : db) : response * db :=
  let both :=
    await user ← createUser (prop body "name") (prop body "password")
                   (prop body "phone") (prop body "picture") (JNum (NInt 1));
    await rider_car ← createRiderCar (prop user "id") (prop body "image_car")
                        (prop body "plate_number") (prop body "car_type");
    ret (user, rider_car) in
  match both st with
  | (Return (user, rider_car), st') =>
      ({| status := 201;
          body := {[ "user" := FObj user; "rider_car" := FObj rider_car ]} |}, st')
  | (Throw e, st') => (catch_register e, st')
  end.

(** [GET /users/:id] *)
Definition get_user (id : string) (st : db) : response * db :=
  match doc_get USER_COL id st with
  | None => ({| status := 404; body := error_body "not found" |}, st)
  | Some data =>
      ({| status := 200; body := flat (spread {[ "id" := JStr id ]} data) |}, st)
  end.

(** [GET /users/by-phone/:phone] *)
Definition get_user_by_phone (phone : string) (st : db) : response * db :=
  match limit 1 (where_eq "phone" (JStr phone) (collection_of USER_COL st)) with
  | [] => ({| status := 404; body := error_body "not found" |}, st)
  | (id, data) :: _ =>
      ({| status := 200; body := flat (spread {[ "id" := JStr id ]} data) |}, st)
  end.

Definition allowed : list string := ["name"; "password"; "phone"; "picture"; "role"].

(** [for (const k of allowed) if (k in req.body) patch[k] = req.body[k]] *)
Definition pick_allowed (body : obj) : obj :=
  foldl (λ patch k, match body !! k with
                    | Some v => <[k := v]> patch
                    | None => patch
                    end) ∅ allowed.

(** [PATCH /users/:id] *)
Definition patch_user `{Runtime} (id : string) (body : obj) (st : db)
  : response * db :=
  match doc_get USER_COL id st with
  | None => ({| status := 404; body := error_body "not found" |}, st)
  | Some _ =>
      let patch0 := pick_allowed body in
      let normalized : outcome obj :=
        match patch0 !! "role" with
        | Some role =>
            match normalizeRoleInt role with
            | Return r => Return (<["role" := JNum r]> patch0)
            | Throw e => Throw e
            end
        | None => Return patch0
        end in
      match normalized with
      | Throw e => ({| status := 400; body := error_body (message e) |}, st)
      | Return patch =>
          let dup :=
            if truthy (prop patch "phone")
            then limit 1 (where_eq "phone" (JStr (ToString (prop patch "phone")))
                            (collection_of USER_COL st))
            else [] in
          match dup with
          | (other, _) :: _ =>
              if str_strict_neq other id
              then ({| status := 409; body := error_body "phone already exists" |}, st)
              else
                match doc_update USER_COL id patch st with
                | (Throw e, st') =>
                    ({| status := 400; body := error_body (message e) |}, st')
                | (Return _, st') =>
                    ({| status := 200;
                        body := flat (spread {[ "id" := JStr id ]}
                                        (default ∅ (doc_get USER_COL id st'))) |}, st')
                end
          | [] =>
              match doc_update USER_COL id patch st with
              | (Throw e, st') =>
                  ({| status := 400; body := error_body (message e) |}, st')
              | (Return _, st') =>
                  ({| status := 200;
                      body := flat (spread {[ "id" := JStr id ]}
                                      (default ∅ (doc_get USER_COL id st'))) |}, st')
              end
          end
      end
  end.

(** [DELETE /users/:id] *)
Definition delete_user (id : string) (st : db) : response * db :=
  match doc_get USER_COL id st with
  | None => ({| status := 404; body := error_body "not found" |}, st)
  | Some _ =>
      ({| status := 200; body := {[ "ok" := FVal (JBool true) ]} |},
       doc_delete USER_COL id st)
  end.

(** [POST /login] *)
Definition login `{Runtime} (body : obj) (st : db) : response * db :=
  let phone := prop body "phone" in
  let password := prop body "password" in
  if falsy phone || falsy password
  then ({| status := 400; body := error_body "phone and password are required" |}, st)
  else
    match limit 1 (where_eq "phone" (JStr (ToString phone))
                     (collection_of USER_COL st)) with
    | [] => ({| status := 401; body := error_body "invalid credentials" |}, st)
    | (id, u) :: _ =>
        if str_strict_neq (ToString (prop u "password")) (ToString password)
        then ({| status := 401; body := error_body "invalid credentials" |}, st)
        else
          ({| status := 200;
              body := flat {[ "id" := JStr id;
                              "name" := prop u "name";
                              "phone" := prop u "phone";
                              "role" := JNum (ToNumber (prop u "role")) ]} |}, st)
    end.

(** *** The revision as a state machine

    One [op] is one request served, or one call of a creator or of the
    allocator.  [GET /] and [GET /users] only read and are left out. *)

Inductive op :=
  | PostRegisterUser (body : obj)
  | PostRegisterRider (body : obj)
  | GetUser (id : string)
  | GetUserByPhone (phone : string)
  | PatchUser (id : string) (body : obj)
  | DeleteUser (id : string)
  | PostLogin (body : obj)
  | CallCreateUser (name password phone picture role : jsval)
  | CallCreateAddress (user_id address lat lng : jsval)
  | CallCreateRiderCar (user_id image_car plate_number car_type : jsval)
  | Allocate (sequence : string).

(** The database an operation leaves. *)
Definition exec `{Runtime} (o : op) (st : db) : db :=
  match o with
  | PostRegisterUser body => (register_user body st).2
  | PostRegisterRider body => (register_rider body st).2
  | GetUser id => (get_user id st).2
  | GetUserByPhone phone => (get_user_by_phone phone st).2
  | PatchUser id body => (patch_user id body st).2
  | DeleteUser id => (delete_user id st).2
  | PostLogin body => (login body st).2
  | CallCreateUser name password phone picture role =>
      (createUser name password phone picture role st).2
  | CallCreateAddress user_id address lat lng =>
      (createAddress user_id address lat lng st).2
  | CallCreateRiderCar user_id image_car plate_number car_type =>
      (createRiderCar user_id image_car plate_number car_type st).2
  | Allocate sequence => (nextId sequence st).2
  end.

(** The databases the service can be in, starting from an empty store. *)
Inductive reachable `{Runtime} : db → Prop :=
  | reachable_empty : reachable ∅
  | reachable_exec o st : reachable st → reachable (exec o st).

(** The integer a counter record holds, 0 when there is no record. *)
Definition counter_value (sequence : string) (st : db) : Z :=
  match doc_get COUNTERS sequence st with
  | Some d => match prop d "value" with
              | JNum (NInt n) => n
              | _ => 0
              end
  | None => 0
  end.

(** Transactions are serializable: callers that run concurrently are served
    in some serial order, the one in which the store commits them.  A
    schedule is such an order; other operations may be committed in
    between.  [allocations s ops st] lists, for every [Allocate s] of the
    schedule [ops] started in [st], the current value the transaction read
    and the value the call returned. *)
Fixpoint allocations `{Runtime} (sequence : string) (ops : list op) (st : db)
  : list (number * number) :=
  match ops with
  | [] => []
  | o :: rest =>
      let here :=
        match o with
        | Allocate s' =>
            if decide (s' = sequence)
            then match nextId sequence st with
                 | (Return v, _) => [(current_of (doc_get COUNTERS sequence st), v)]
                 | (Throw _, _) => []
                 end
            else []
        | _ => []
        end in
      here ++ allocations sequence rest (exec o st)
  end.

(** The number of calls of [Allocate sequence] in a schedule. *)
Fixpoint calls (sequence : string) (ops : list op) : nat :=
  match ops with
  | [] => 0
  | Allocate s' :: rest =>
      if decide (s' = sequence) then S (calls sequence rest) else calls sequence rest
  | _ :: rest => calls sequence rest
  end.

(** Every counter record holds a non-negative integer in [value]. *)
Definition counters_wf (st : db) : Prop :=
  ∀ s d, doc_get COUNTERS s st = Some d →
         ∃ n, d !! "value" = Some (JNum (NInt n)) ∧ 0 ≤ n.

(** From [st] to [st'] the counters stay well formed and none decreases. *)
Definition grows (st st' : db) : Prop :=
  counters_wf st →
  counters_wf st' ∧ ∀ s, counter_value s st ≤ counter_value s st'.

(** A computation under which the counters only grow. *)
Definition keeps {A} (c : M A) : Prop := ∀ st, grows st (c st).2.

(** *** Concurrent callers of the allocator *)

(** A caller of [nextId(sequence)]: about to start (or to start over after
    an abort), holding the snapshot its transaction has read, returned with
    the current value it read and the value it was issued, or failed for
    good. *)
Inductive caller :=
  | Idle
  | Pending (snap : option doc)
  | Returned (current next : number)
  | GaveUp.

(** What can happen next: the transaction of caller [i] reads the counter
    record, the transaction of caller [i] asks to commit, caller [i] stops
    retrying, or some other operation is served. *)
Inductive event :=
  | Begin (i : nat)
  | Commit (i : nat)
  | Quit (i : nat)
  | Serve (o : op).

Record world := World {
  store : db;
  callers : gmap nat caller
}.

(** Modelled from the spec: the store's transaction primitive under
    contention, which the client library provides and the repository only
    calls.  As section 4.1 of the specification requires of it, the store
    detects the write conflict and aborts the racing transaction: a commit
    goes through only if the record is still the one the transaction read,
    and then installs what [nextId_tx] computed from that snapshot;
    otherwise the transaction is aborted and the caller starts over. *)
Definition tstep `{Runtime} (sequence : string) (e : event) (w : world) : world :=
  match e with
  | Begin i =>
      match callers w !! i with
      | Some Idle =>
          World (store w)
                (<[i := Pending (doc_get COUNTERS sequence (store w))]> (callers w))
      | _ => w
      end
  | Commit i =>
      match callers w !! i with
      | Some (Pending snap) =>
          if decide (doc_get COUNTERS sequence (store w) = snap)
          then let '(staged, next) := nextId_tx snap in
               World (doc_set COUNTERS sequence staged (store w))
                     (<[i := Returned (current_of snap) next]> (callers w))
          else World (store w) (<[i := Idle]> (callers w))
      | _ => w
      end
  | Quit i =>
      match callers w !! i with
      | Some Idle | Some (Pending _) =>
          World (store w) (<[i := GaveUp]> (callers w))
      | _ => w
      end
  | Serve o => World (exec o (store w)) (callers w)
  end.

(** The world after a sequence of events, in the order they happen. *)
Definition run `{Runtime} (sequence : string) (es : list event) (w : world) : world :=
  foldl (λ w e, tstep sequence e w) w es.


(** *** The users of a reachable database *)

(** Every user sits under the decimal rendering of its [user_id], a number
    the user sequence has already passed, and has role 0 or 1. *)
Definition users_wf (st : db) : Prop :=
  ∀ id u, doc_get USER_COL id st = Some u →
    ∃ n, id = NumberToString (NInt n)
         ∧ 1 ≤ n ≤ counter_value "user_seq" st
         ∧ u !! "user_id" = Some (JNum (NInt n))
         ∧ (u !! "role" = Some (JNum (NInt 0)) ∨ u !! "role" = Some (JNum (NInt 1))).

(** No two users hold the same non-empty string as [phone]. *)
Definition phones_unique (st : db) : Prop :=
  ∀ id1 id2 u1 u2 p,
    p ≠ "" →
    doc_get USER_COL id1 st = Some u1 → doc_get USER_COL id2 st = Some u2 →
    u1 !! "phone" = Some (JStr p) → u2 !! "phone" = Some (JStr p) →
    id1 = id2.

Definition service_inv (st : db) : Prop :=
  counters_wf st ∧ users_wf st ∧ phones_unique st.

(** What a [PATCH] that writes has checked: the patch [patch] it merges
    into the user [u] holds allowed properties only, the role normalised,
    and a phone nobody else holds. *)
Definition patch_checked (b : obj) (st : db) (u patch : obj) : Prop :=
  (∀ k, k ∉ allowed → patch !! k = None)
  ∧ (∀ k, k ≠ "role" → patch !! k = pick_allowed b !! k)
  ∧ (∀ v, patch !! "role" = Some v → v = JNum (NInt 0) ∨ v = JNum (NInt 1))
  ∧ (∀ p, patch !! "phone" = Some (JStr p) → p ≠ "" →
       (∀ id' u', doc_get USER_COL id' st = Some u' → u' !! "phone" ≠ Some (JStr p))
       ∨ u !! "phone" = Some (JStr p)).

(** The part of [createUser] that runs once the guard has answered: from
    [const idNum = await nextId("user_seq")] to the [return]. *)
Definition createUser_store `{Runtime} (name password phone picture : jsval)
    (roleInt : number) : M obj :=
  await idNum ← nextId "user_seq";
  let id := ToString (JNum idNum) in
  let data : obj :=
    {[ "user_id" := JNum idNum;
       "name" := JStr (ToString name);
       "password" := JStr (ToString password);
       "phone" := JStr (ToString phone);
       "picture" := if truthy picture then JStr (ToString picture) else JNull;
       "role" := JNum roleInt ]} in
  await _ ← write (doc_set USER_COL id data);
  ret (spread {[ "id" := JStr id ]} data).

End IdAlloc.

(* ===================================================================== *)
(** ** The revision with store-generated document keys *)
(* ===================================================================== *)

(** [collection.add(data)] lets the store pick the key of the new document.
    The creators below take that key as their first argument [key]. *)

Module AutoKey.

Definition USER_COL : string := "user".
Definition ADDR_COL : string := "user_address".
Definition RIDER_COL : string := "rider_car".

(** [collection.add(data)] followed by [ref.get()]: the stored data. *)
Definition add_then_get (name key : string) (data : doc) : M doc :=
  await _ ← write (doc_set name key data);
  read (λ st, default ∅ (doc_get name key st)).

Definition assertPhoneNotDuplicate (phone : jsval) : M unit := λ st,
  let snap :=
    limit 1 (where_eq "phone" (JStr (ToString phone)) (collection_of USER_COL st)) in
  match snap with
  | (id, u) :: _ =>
      (Throw {| message := "phone already exists";
                code := Some 409;
                payload := Some {[ "id" := JStr id;
                                   "phone" := prop u "phone";
                                   "name" := prop u "name" ]} |}, st)
  | [] => (Return (), st)
  end.

(** [[0, 1].includes(r)] *)
Definition includes01 (r : number) : bool :=
  match r with
  | NInt 0 | NInt 1 => true
  | _ => false
  end.

Definition createUser `{Runtime} (key : string)
    (name password phone picture role : jsval) : M obj :=
  if falsy name || falsy password || falsy phone
  then throw {| message := "name, password, phone are required";
                code := Some 400; payload := None |}
  else
    let roleNum := match role with
                   | JUndefined => NInt 0
                   | _ => ToNumber role
                   end in
    if negb (includes01 roleNum)
    then throw {| message := "role must be 0 or 1"; code := Some 400; payload := None |}
    else
      await _ ← assertPhoneNotDuplicate phone;
      await data ← add_then_get USER_COL key
        {[ "name" := JStr (ToString name);
           "password" := JStr (ToString password);
           "phone" := JStr (ToString phone);
           "picture" := if truthy picture then JStr (ToString picture) else JNull;
           "role" := JNum roleNum ]};
      ret (spread {[ "id" := JStr key ]} data).

Definition createAddress `{Runtime} (key : string) (user_id address lat lng : jsval)
  : M obj :=
  if falsy user_id || falsy address
  then throw {| message := "user_id and address are required";
                code := Some 400; payload := None |}
  else
    let payload : obj :=
      {[ "user_id" := JStr (ToString user_id);
         "address" := JStr (ToString address);
         "lat" := if loose_null lat then JNull else JNum (ToNumber lat);
         "lng" := if loose_null lng then JNull else JNum (ToNumber lng) ]} in
    await data ← add_then_get ADDR_COL key payload;
    ret (spread {[ "id" := JStr key ]} data).

Definition createRiderCar (key : string)
    (user_id image_car plate_number car_type : jsval) : M obj :=
  if falsy user_id || falsy plate_number || falsy car_type
  then throw {| message := "user_id, plate_number, car_type are required";
                code := Some 400; payload := None |}
  else
    let payload : obj :=
      {[ "user_id" := JStr (ToString user_id);
         "image_car" := if truthy image_car then JStr (ToString image_car) else JNull;
         "plate_number" := JStr (ToString plate_number);
         "car_type" := JStr (ToString car_type) ]} in
    await data ← add_then_get RIDER_COL key payload;
    ret (spread {[ "id" := JStr key ]} data).

(** [res.status(e.code || 400).json({ error: e.message, ...(e.payload || {}) })] *)
Definition catch_with_payload (e : js_error) : response :=
  {| status := code_or e 400;
     body := flat (spread {[ "error" := JStr (message e) ]} (payload_or_empty e)) |}.

(** [POST /register/user] *)
Definition register_user `{Runtime} (key : string) (body : obj) (st : db)
  : response * db :=
  match createUser key (prop body "name") (prop body "password")
                   (prop body "phone") (prop body "picture") (JNum (NInt 0)) st with
  | (Return user, st') => ({| status := 201; body := {[ "user" := FObj user ]} |}, st')
  | (Throw e, st') => (catch_with_payload e, st')
  end.

(** [POST /register/rider]: [ukey] and [ckey] are the keys the store picks
    for the user and for the vehicle. *)
Definition register_rider `{Runtime} (ukey ckey : string) (body : obj) (st : db)
  : response * db :=
  let both :=
    await user ← createUser ukey (prop body "name") (prop body "password")
                   (prop body "phone") (prop body "picture") (JNum (NInt 1));
    await rider_car ← createRiderCar ckey (prop user "id") (prop body "image_car")
                        (prop body "plate_number") (prop body "car_type");
    ret (user, rider_car) in
  match both st with
  | (Return (user, rider_car), st') =>
      ({| status := 201;
          body := {[ "user" := FObj user; "rider_car" := FObj rider_car ]} |}, st')
  | (Throw e, st') => (catch_with_payload e, st')
  end.

(** [POST /users/:id/addresses] *)
Definition post_user_addresses `{Runtime} (key : string) (id : string) (body : obj)
    (st : db) : response * db :=
  let user_id := id in
  match doc_get USER_COL user_id st with
  | None => ({| status := 404; body := error_body "user not found" |}, st)
  | Some _ =>
      match createAddress key (JStr user_id) (prop body "address")
                          (prop body "lat") (prop body "lng") st with
      | (Return addr, st') =>
          ({| status := 201; body := {[ "address" := FObj addr ]} |}, st')
      | (Throw e, st') =>
          ({| status := code_or e 400; body := error_body (message e) |}, st')
      end
  end.

(** [POST /users] *)
Definition post_users `{Runtime} (key : string) (body : obj) (st : db)
  : response * db :=
  match createUser key (prop body "name") (prop body "password")
                   (prop body "phone") (prop body "picture") (prop body "role") st with
  | (Return user, st') => ({| status := 201; body := flat user |}, st')
  | (Throw e, st') => (catch_with_payload e, st')
  end.

(** [POST /login] *)
Definition login (body : obj) (st : db) : response * db :=
  let phone := prop body "phone" in
  let password := prop body "password" in
  if falsy phone || falsy password
  then ({| status := 400; body := error_body "phone and password are required" |}, st)
  else
    match limit 1 (where_eq "phone" (JStr (ToString phone))
                     (collection_of USER_COL st)) with
    | [] => ({| status := 401; body := error_body "invalid credentials" |}, st)
    | (id, u) :: _ =>
        if str_strict_neq (ToString (prop u "password")) (ToString password)
        then ({| status := 401; body := error_body "invalid credentials" |}, st)
        else
          ({| status := 200;
              body := flat {[ "id" := JStr id;
                              "name" := prop u "name";
                              "phone" := prop u "phone";
                              "role" := prop u "role" ]} |}, st)
    end.

End AutoKey.

(* ===================================================================== *)
(** ** The first revision: routes that talk to the store directly *)
(* ===================================================================== *)

Module Inline.

Definition COL : string := "user".
Definition ADDR_COL : string := "user_address".

(** [POST /addresses] *)
Definition post_addresses `{Runtime} (key : string) (body : obj) (st : db)
  : response * db :=
  let user_id := prop body "user_id" in
  let address := prop body "address" in
  let lat := prop body "lat" in
  let lng := prop body "lng" in
  if falsy user_id || falsy address
  then ({| status := 400; body := error_body "user_id and address are required" |}, st)
  else
    match doc_get COL (ToString user_id) st with
    | None => ({| status := 404; body := error_body "user not found" |}, st)
    | Some _ =>
        let data : obj :=
          {[ "user_id" := JStr (ToString user_id);
             "address" := JStr (ToString address);
             "lat" := match lat with JUndefined => JNull | _ => JNum (ToNumber lat) end;
             "lng" := match lng with JUndefined => JNull | _ => JNum (ToNumber lng) end ]} in
        let st' := doc_set ADDR_COL key data st in
        ({| status := 201;
            body := flat (spread {[ "address_id" := JStr key ]}
                            (default ∅ (doc_get ADDR_COL key st'))) |}, st')
    end.

(** [POST /users] *)
Definition post_users `{Runtime} (key : string) (body : obj) (st : db)
  : response * db :=
  let name := prop body "name" in
  let password := prop body "password" in
  let phone := prop body "phone" in
  let picture := prop body "picture" in
  let role := prop body "role" in
  if falsy name || falsy password || falsy phone
  then ({| status := 400; body := error_body "name, password, phone are required" |}, st)
  else
    let roleNum := match role with
                   | JUndefined => NInt 0
                   | _ => ToNumber role
                   end in
    if negb (AutoKey.includes01 roleNum)
    then ({| status := 400; body := error_body "role must be 0 or 1" |}, st)
    else
      match limit 1 (where_eq "phone" (JStr (ToString phone)) (collection_of COL st)) with
      | _ :: _ => ({| status := 409; body := error_body "phone already exists" |}, st)
      | [] =>
          let data : obj :=
            {[ "name" := JStr (ToString name);
               "password" := JStr (ToString password);
               "phone" := JStr (ToString phone);
               "picture" := if truthy picture then JStr (ToString picture) else JNull;
               "role" := JNum roleNum ]} in
          let st' := doc_set COL key data st in
          ({| status := 201;
              body := flat (spread {[ "id" := JStr key ]}
                              (default ∅ (doc_get COL key st'))) |}, st')
      end.

(** [GET /users/:id] *)
Definition get_user (id : string) (st : db) : response * db :=
  match doc_get COL id st with
  | None => ({| status := 404; body := error_body "not found" |}, st)
  | Some data =>
      ({| status := 200; body := flat (spread {[ "id" := JStr id ]} data) |}, st)
  end.

(** [GET /users/by-phone/:phone] *)
Definition get_user_by_phone (phone : string) (st : db) : response * db :=
  match limit 1 (where_eq "phone" (JStr phone) (collection_of COL st)) with
  | [] => ({| status := 404; body := error_body "not found" |}, st)
  | (id, data) :: _ =>
      ({| status := 200; body := flat (spread {[ "id" := JStr id ]} data) |}, st)
  end.

(** [PATCH /users/:id]: the role is passed through [Number] and stored as
    it comes out. *)
Definition patch_user `{Runtime} (id : string) (body : obj) (st : db)
  : response * db :=
  match doc_get COL id st with
  | None => ({| status := 404; body := error_body "not found" |}, st)
  | Some _ =>
      let patch0 := IdAlloc.pick_allowed body in
      let patch : obj :=
        match patch0 !! "role" with
        | Some role => <["role" := JNum (ToNumber role)]> patch0
        | None => patch0
        end in
      let dup :=
        if truthy (prop patch "phone")
        then limit 1 (where_eq "phone" (JStr (ToString (prop patch "phone")))
                        (collection_of COL st))
        else [] in
      let update :=
        match doc_update COL id patch st with
        | (Throw e, st') =>
            ({| status := 400; body := error_body (message e) |}, st')
        | (Return _, st') =>
            ({| status := 200;
                body := flat (spread {[ "id" := JStr id ]}
                                (default ∅ (doc_get COL id st'))) |}, st')
        end in
      match dup with
      | (other, _) :: _ =>
          if str_strict_neq other id
          then ({| status := 409; body := error_body "phone already exists" |}, st)
          else update
      | [] => update
      end
  end.

(** [DELETE /users/:id] *)
Definition delete_user (id : string) (st : db) : response * db :=
  match doc_get COL id st with
  | None => ({| status := 404; body := error_body "not found" |}, st)
  | Some _ =>
      ({| status := 200; body := {[ "ok" := FVal (JBool true) ]} |},
       doc_delete COL id st)
  end.

(** What [GET /addresses] hands to [res.json]: [{ items, count }]. *)
Record listing := Listing {
  items : list obj;
  count : nat
}.

(** [GET /addresses?user_id=...]: [uid] is [undefined] when the query has
    no [user_id]. *)
Definition get_addresses (uid : jsval) (st : db) : listing :=
  let docs :=
    if truthy uid
    then where_eq "user_id" (JStr (ToString uid)) (collection_of ADDR_COL st)
    else map_to_list (collection_of ADDR_COL st) in
  {| items := (λ d : string * doc, spread {[ "address_id" := JStr d.1 ]} d.2) <$> docs;
     count := length docs |}.

End Inline.

(* ===================================================================== *)
(** ** Sample requests and databases *)
(* ===================================================================== *)

Module Sample.

Definition alice : obj :=
  {[ "name" := JStr "A"; "password" := JStr "x"; "phone" := JStr "0800000001" ]}.

Definition alice_login : obj :=
  {[ "phone" := JStr "0800000001"; "password" := JStr "x" ]}.

(** A rider registration that forgets the plate number. *)
Definition rider_without_plate : obj :=
  {[ "name" := JStr "R"; "password" := JStr "y"; "phone" := JStr "0800000002";
     "car_type" := JStr "motorcycle" ]}.

(** The record the counter revision stores for [alice]. *)
Definition alice_record : doc :=
  {[ "user_id" := JNum (NInt 1);
     "name" := JStr "A";
     "password" := JStr "x";
     "phone" := JStr "0800000001";
     "picture" := JNull;
     "role" := JNum (NInt 0) ]}.

(** The database of the counter revision after [alice] registered. *)
Definition after_alice : db :=
  @IdAlloc.exec decimal_runtime (IdAlloc.PostRegisterUser alice) ∅.

(** Three allocations of user ids with a registration committed in between,
    and one allocation on another sequence. *)
Definition schedule : list IdAlloc.op :=
  [ IdAlloc.Allocate "user_seq";
    IdAlloc.PostRegisterUser alice;
    IdAlloc.Allocate "user_seq";
    IdAlloc.Allocate "rider_seq";
    IdAlloc.Allocate "user_seq" ].



Definition bob : obj :=
  {[ "name" := JStr "B"; "password" := JStr "y"; "phone" := JStr "0800000002" ]}.

(** The record the counter revision stores for [bob], who registers
    after [alice]. *)
Definition bob_record : doc :=
  {[ "user_id" := JNum (NInt 2);
     "name" := JStr "B";
     "password" := JStr "y";
     "phone" := JStr "0800000002";
     "picture" := JNull;
     "role" := JNum (NInt 0) ]}.

(** The database of the counter revision after [alice] and [bob]
    registered. *)
Definition after_bob : db :=
  @IdAlloc.exec decimal_runtime (IdAlloc.PostRegisterUser bob) after_alice.

(** A complete rider registration. *)
Definition rider : obj :=
  {[ "name" := JStr "R"; "password" := JStr "z"; "phone" := JStr "0800000003";
     "plate_number" := JStr "AB-1"; "car_type" := JStr "motorcycle" ]}.

(** An address for the user [alice] became, the record the first revision
    stores for it, and the database once it is stored under the key
    [a1]. *)
Definition alice_home : obj :=
  {[ "user_id" := JStr "1"; "address" := JStr "home" ]}.

Definition home_record : doc :=
  {[ "user_id" := JStr "1"; "address" := JStr "home";
     "lat" := JNull; "lng" := JNull ]}.

Definition with_home : db :=
  (@Inline.post_addresses decimal_runtime "a1" alice_home after_alice).2.

End Sample.

(* ===================================================================== *)
(** ** Facts about the store *)
(* ===================================================================== *)

Section StoreFacts.

Implicit Types (st : db) (c : collection) (d : doc) (name id : string).

Lemma collection_of_doc_set name id d st :
  collection_of name (doc_set name id d st) = <[id := d]> (collection_of name st).
Proof. unfold collection_of at 1, doc_set. by rewrite lookup_insert_eq. Qed.

Lemma collection_of_doc_set_ne name name' id d st :
  name ≠ name' →
  collection_of name' (doc_set name id d st) = collection_of name' st.
Proof. intros Hne. unfold collection_of, doc_set. by rewrite lookup_insert_ne. Qed.

Lemma doc_get_doc_set name id d st :
  doc_get name id (doc_set name id d st) = Some d.
Proof. unfold doc_get. by rewrite collection_of_doc_set, lookup_insert_eq. Qed.

Lemma doc_get_doc_set_ne name id id' d st :
  id ≠ id' → doc_get name id' (doc_set name id d st) = doc_get name id' st.
Proof.
  intros Hne. unfold doc_get. by rewrite collection_of_doc_set, lookup_insert_ne.
Qed.

Lemma collection_of_doc_delete_ne name name' id st :
  name ≠ name' →
  collection_of name' (doc_delete name id st) = collection_of name' st.
Proof. intros Hne. unfold collection_of, doc_delete. by rewrite lookup_insert_ne. Qed.

(** A query returns exactly the documents that hold the value. *)
Lemma elem_of_where_eq f v c id d :
  (id, d) ∈ where_eq f v c ↔ c !! id = Some d ∧ d !! f = Some v.
Proof.
  unfold where_eq. rewrite list_elem_of_filter, elem_of_map_to_list. simpl.
  tauto.
Qed.

Lemma NoDup_where_eq f v c : NoDup (where_eq f v c).
Proof. apply NoDup_filter, NoDup_map_to_list. Qed.

Lemma where_eq_nil f v c :
  (∀ id d, c !! id = Some d → d !! f ≠ Some v) → where_eq f v c = [].
Proof.
  intros Hnone. destruct (where_eq f v c) as [| [id d] l] eqn:Hq; [done |].
  assert ((id, d) ∈ where_eq f v c) as Hin by (rewrite Hq; left).
  apply elem_of_where_eq in Hin as [Hc Hd]. by destruct (Hnone id d Hc).
Qed.

Lemma where_eq_cons f v c id d :
  c !! id = Some d → d !! f = Some v →
  ∃ id' d' l, where_eq f v c = (id', d') :: l ∧ c !! id' = Some d' ∧ d' !! f = Some v.
Proof.
  intros Hc Hd.
  assert ((id, d) ∈ where_eq f v c) as Hin by (by apply elem_of_where_eq).
  destruct (where_eq f v c) as [| [id' d'] l] eqn:Hq.
  - by apply elem_of_nil in Hin.
  - exists id', d', l. split; [done |].
    apply elem_of_where_eq. rewrite Hq. left.
Qed.

(** When one document only holds the value, the query returns it alone. *)
Lemma where_eq_unique f v c id d :
  c !! id = Some d → d !! f = Some v →
  (∀ id' d', c !! id' = Some d' → d' !! f = Some v → id' = id) →
  where_eq f v c = [(id, d)].
Proof.
  intros Hc Hd Huniq.
  assert (∀ x, x ∈ where_eq f v c → x = (id, d)) as Hall.
  { intros [id' d'] [Hc' Hd']%elem_of_where_eq.
    assert (id' = id) as -> by eauto. congruence. }
  assert ((id, d) ∈ where_eq f v c) as Hin by (by apply elem_of_where_eq).
  pose proof (NoDup_where_eq f v c) as Hnd.
  destruct (where_eq f v c) as [| a [| b l]].
  - by apply elem_of_nil in Hin.
  - f_equal. apply Hall. left.
  - assert (a = (id, d)) as -> by (apply Hall; left).
    assert (b = (id, d)) as -> by (apply Hall; right; left).
    apply NoDup_cons in Hnd as [Hnotin _]. destruct Hnotin. left.
Qed.

End StoreFacts.

(* ===================================================================== *)
(** ** The sequence allocator *)
(* ===================================================================== *)

Section Allocator.

Context `{!Runtime}.

Import IdAlloc.

(** C1.  A call of [nextId s] reads the counter record of [s], takes 0
    for its current value when there is no record, computes
    [next = current + 1], writes [next] into the record (a fresh record
    holding only [value] when there was none, the same record with
    [value] replaced otherwise), returns [next], and touches no other
    counter and no other collection. *)
Theorem nextId_spec (s : string) (st : db) :
  let current :=
    match doc_get COUNTERS s st with
    | Some d => ToNumber (js_or (prop d "value") (JNum (NInt 0)))
    | None => NInt 0
    end in
  let next := num_add current (NInt 1) in
  ∃ st',
    nextId s st = (Return next, st')
    ∧ (∃ d', doc_get COUNTERS s st' = Some d' ∧ d' !! "value" = Some (JNum next))
    ∧ (doc_get COUNTERS s st = None →
         next = NInt 1 ∧ doc_get COUNTERS s st' = Some {[ "value" := JNum next ]})
    ∧ (∀ d, doc_get COUNTERS s st = Some d →
         ∃ d', doc_get COUNTERS s st' = Some d'
               ∧ ∀ k, k ≠ "value" → d' !! k = d !! k)
    ∧ (∀ s', s' ≠ s → doc_get COUNTERS s' st' = doc_get COUNTERS s' st)
    ∧ (∀ name, name ≠ COUNTERS → collection_of name st' = collection_of name st).
Proof.
  intros current next. unfold nextId, runTransaction, nextId_tx, current_of.
  destruct (doc_get COUNTERS s st) as [d |] eqn:Hsnap; simpl in current.
  - eexists. split; [reflexivity |].
    rewrite doc_get_doc_set.
    split; [| split; [| split; [| split]]].
    + eexists. split; [done |]. unfold spread.
      by rewrite lookup_union_l', lookup_singleton_eq; [| rewrite lookup_singleton_eq].
    + done.
    + intros d0 [= <-]. eexists. split; [done |]. intros k Hk.
      unfold spread. rewrite lookup_union_r; [done |].
      by rewrite lookup_singleton_ne.
    + intros s' Hs'. by rewrite doc_get_doc_set_ne.
    + intros name Hname. by rewrite collection_of_doc_set_ne.
  - eexists. split; [reflexivity |].
    rewrite doc_get_doc_set.
    split; [| split; [| split; [| split]]].
    + eexists. split; [done |]. by rewrite lookup_singleton_eq.
    + done.
    + done.
    + intros s' Hs'. by rewrite doc_get_doc_set_ne.
    + intros name Hname. by rewrite collection_of_doc_set_ne.
Qed.

(** *** The counters only grow *)

Lemma grows_refl st : grows st st.
Proof. by intros Hwf. Qed.

Lemma grows_trans st1 st2 st3 : grows st1 st2 → grows st2 st3 → grows st1 st3.
Proof.
  intros H12 H23 Hwf. destruct (H12 Hwf) as [Hwf2 Hle12].
  destruct (H23 Hwf2) as [Hwf3 Hle23]. split; [done |].
  intros s. specialize (Hle12 s). specialize (Hle23 s). lia.
Qed.

Lemma grows_same_counters st st' :
  collection_of COUNTERS st' = collection_of COUNTERS st → grows st st'.
Proof.
  intros Heq Hwf. unfold counters_wf, counter_value, doc_get in *.
  rewrite Heq. split; [done |]. intros s. lia.
Qed.

(** On a well-formed counter the transaction reads the stored integer. *)
Lemma current_of_wf s st :
  counters_wf st →
  current_of (doc_get COUNTERS s st) = NInt (counter_value s st)
  ∧ 0 ≤ counter_value s st.
Proof.
  intros Hwf. unfold counter_value, current_of.
  destruct (doc_get COUNTERS s st) as [d |] eqn:Hd; [| done].
  destruct (Hwf s d Hd) as (n & Hv & Hn). unfold prop. rewrite Hv. simpl.
  unfold js_or. simpl. destruct (Z.eqb_spec n 0) as [-> |]; done.
Qed.

Lemma nextId_wf s st :
  counters_wf st →
  ∃ st', nextId s st = (Return (NInt (counter_value s st + 1)), st')
         ∧ counters_wf st'
         ∧ counter_value s st' = counter_value s st + 1
         ∧ ∀ s', s' ≠ s → counter_value s' st' = counter_value s' st.
Proof.
  intros Hwf. destruct (current_of_wf s st Hwf) as [Hcur Hpos].
  unfold nextId, runTransaction, nextId_tx. rewrite Hcur. simpl.
  set (n := counter_value s st) in *.
  assert (∀ d : doc,
    d !! "value" = Some (JNum (NInt (n + 1))) →
    counters_wf (doc_set COUNTERS s d st)
    ∧ counter_value s (doc_set COUNTERS s d st) = n + 1
    ∧ ∀ s', s' ≠ s →
        counter_value s' (doc_set COUNTERS s d st) = counter_value s' st) as Hset.
  { intros d Hd. split; [| split].
    - intros s' d'. destruct (decide (s' = s)) as [-> | Hne].
      + rewrite doc_get_doc_set. intros [= <-]. exists (n + 1). split; [done | lia].
      + rewrite doc_get_doc_set_ne by done. apply Hwf.
    - unfold counter_value. rewrite doc_get_doc_set. unfold prop. by rewrite Hd.
    - intros s' Hne. unfold counter_value. by rewrite doc_get_doc_set_ne. }
  destruct (doc_get COUNTERS s st) as [d |] eqn:Hd.
  - eexists. split; [reflexivity |]. apply Hset.
    unfold spread. by rewrite lookup_union_l', lookup_singleton_eq;
      [| rewrite lookup_singleton_eq].
  - eexists. split; [reflexivity |]. apply Hset.
    by rewrite lookup_singleton_eq.
Qed.

Lemma keeps_nextId s : keeps (nextId s).
Proof.
  intros st Hwf. destruct (nextId_wf s st Hwf) as (st' & -> & Hwf' & Hs & Hother).
  simpl. split; [done |]. intros s'.
  destruct (decide (s' = s)) as [-> | Hne]; [lia |]. rewrite Hother by done. lia.
Qed.

Lemma keeps_ret {A} (a : A) : keeps (ret a).
Proof. intros st. apply grows_refl. Qed.

Lemma keeps_throw {A} e : keeps (@throw A e).
Proof. intros st. apply grows_refl. Qed.

Lemma keeps_lift {A} (o : outcome A) : keeps (lift o).
Proof. intros st. apply grows_refl. Qed.

Lemma keeps_bind {A B} (c : M A) (k : A → M B) :
  keeps c → (∀ a, keeps (k a)) → keeps (bind c k).
Proof.
  intros Hc Hk st. unfold bind. specialize (Hc st).
  destruct (c st) as [[a | e] st']; simpl in *; [| done].
  eapply grows_trans; [done | apply Hk].
Qed.

Lemma keeps_write_doc_set name id d :
  name ≠ COUNTERS → keeps (write (doc_set name id d)).
Proof.
  intros Hne st. apply grows_same_counters. simpl.
  by rewrite collection_of_doc_set_ne.
Qed.

Lemma keeps_assertPhoneNotDuplicate phone : keeps (assertPhoneNotDuplicate phone).
Proof.
  intros st. unfold assertPhoneNotDuplicate.
  destruct (limit 1 _) as [| [id data] l]; apply grows_refl.
Qed.

Lemma keeps_doc_update name id patch :
  name ≠ COUNTERS → keeps (doc_update name id patch).
Proof.
  intros Hne st. unfold doc_update.
  destruct (decide (patch = ∅)); [apply grows_refl |].
  destruct (doc_get name id st); [| apply grows_refl].
  apply grows_same_counters. simpl. by rewrite collection_of_doc_set_ne.
Qed.

Lemma keeps_createUser name password phone picture role :
  keeps (createUser name password phone picture role).
Proof.
  unfold createUser. destruct (_ || _); [apply keeps_throw |].
  apply keeps_bind; [apply keeps_lift | intros roleInt].
  apply keeps_bind; [apply keeps_assertPhoneNotDuplicate | intros _].
  apply keeps_bind; [apply keeps_nextId | intros idNum].
  apply keeps_bind; [by apply keeps_write_doc_set | intros _].
  apply keeps_ret.
Qed.

Lemma keeps_createAddress user_id address lat lng :
  keeps (createAddress user_id address lat lng).
Proof.
  unfold createAddress. destruct (_ || _); [apply keeps_throw |].
  apply keeps_bind; [apply keeps_nextId | intros idNum].
  apply keeps_bind; [by apply keeps_write_doc_set | intros _].
  apply keeps_ret.
Qed.

Lemma keeps_createRiderCar user_id image_car plate_number car_type :
  keeps (createRiderCar user_id image_car plate_number car_type).
Proof.
  unfold createRiderCar. destruct (_ || _); [apply keeps_throw |].
  apply keeps_bind; [apply keeps_nextId | intros idNum].
  apply keeps_bind; [by apply keeps_write_doc_set | intros _].
  apply keeps_ret.
Qed.

(** Every operation of the service leaves the counters grown. *)
Lemma exec_grows o st : grows st (exec o st).
Proof.
  destruct o as [b | b | id | phone | id b | id | b | | |
                 | sequence]; unfold exec.
  - unfold register_user.
    pose proof (keeps_createUser (prop b "name") (prop b "password")
                  (prop b "phone") (prop b "picture") (JNum (NInt 0)) st) as Hk.
    by destruct (createUser _ _ _ _ _ st) as [[u | e] st'].
  - unfold register_rider.
    match goal with |- context [bind ?c ?k st] =>
      assert (keeps (bind c k)) as Hk end.
    { apply keeps_bind; [apply keeps_createUser | intros user].
      apply keeps_bind; [apply keeps_createRiderCar | intros car].
      apply keeps_ret. }
    specialize (Hk st).
    by destruct (bind _ _ st) as [[[u c] | e] st'].
  - unfold get_user. destruct (doc_get _ _ _); apply grows_refl.
  - unfold get_user_by_phone. destruct (limit 1 _) as [| [i d] l]; apply grows_refl.
  - unfold patch_user. destruct (doc_get _ _ _); [| apply grows_refl].
    assert (∀ patch, grows st (doc_update USER_COL id patch st).2) as Hupd.
    { intros patch. by apply keeps_doc_update. }
    assert (∀ patch : obj, grows st
      (match (if truthy (prop patch "phone")
              then limit 1 (where_eq "phone" (JStr (ToString (prop patch "phone")))
                              (collection_of USER_COL st))
              else []) with
       | (other, _) :: _ =>
           if str_strict_neq other id
           then ({| status := 409; body := error_body "phone already exists" |}, st)
           else
             match doc_update USER_COL id patch st with
             | (Throw e, st') =>
                 ({| status := 400; body := error_body (message e) |}, st')
             | (Return _, st') =>
                 ({| status := 200;
                     body := flat (spread {[ "id" := JStr id ]}
                                     (default ∅ (doc_get USER_COL id st'))) |}, st')
             end
       | [] =>
           match doc_update USER_COL id patch st with
           | (Throw e, st') =>
               ({| status := 400; body := error_body (message e) |}, st')
           | (Return _, st') =>
               ({| status := 200;
                   body := flat (spread {[ "id" := JStr id ]}
                                   (default ∅ (doc_get USER_COL id st'))) |}, st')
           end
       end).2) as Hrest.
    { intros patch. specialize (Hupd patch).
      destruct (if truthy _ then _ else _) as [| [other d'] l].
      - by destruct (doc_update _ _ _ _) as [[[] | e] st'].
      - destruct (str_strict_neq _ _); [apply grows_refl |].
        by destruct (doc_update _ _ _ _) as [[[] | e] st']. }
    destruct (pick_allowed b !! "role") as [role |]; [| apply Hrest].
    destruct (normalizeRoleInt role) as [r | e]; [apply Hrest | apply grows_refl].
  - unfold delete_user. destruct (doc_get _ _ _); [| apply grows_refl].
    apply grows_same_counters. simpl. by rewrite collection_of_doc_delete_ne.
  - unfold login. destruct (_ || _); [apply grows_refl |].
    destruct (limit 1 _) as [| [i u] l]; [apply grows_refl |].
    destruct (str_strict_neq _ _); apply grows_refl.
  - apply keeps_createUser.
  - apply keeps_createAddress.
  - apply keeps_createRiderCar.
  - apply keeps_nextId.
Qed.

Lemma counters_wf_empty : counters_wf ∅.
Proof. intros s d. unfold doc_get, collection_of. by rewrite lookup_empty. Qed.

Lemma reachable_wf st : reachable st → counters_wf st.
Proof.
  induction 1 as [| o st _ IH]; [apply counters_wf_empty |].
  by apply (exec_grows o st).
Qed.


(** Along a schedule every allocation reads the stored integer and
    returns its successor, and later allocations read larger values. *)
Lemma allocations_wf s ops st :
  counters_wf st →
  length (allocations s ops st) = calls s ops
  ∧ Forall (λ cn, ∃ n, cn = (NInt n, NInt (n + 1)) ∧ counter_value s st ≤ n)
           (allocations s ops st)
  ∧ NoDup (allocations s ops st).*1
  ∧ NoDup (allocations s ops st).*2.
Proof.
  revert st. induction ops as [| o rest IH]; intros st Hwf.
  { simpl. repeat split; constructor. }
  destruct (exec_grows o st Hwf) as [Hwf1 Hle].
  destruct (IH (exec o st) Hwf1) as (Hlen & Hall & Hnd1 & Hnd2).
  assert (Forall (λ cn, ∃ n, cn = (NInt n, NInt (n + 1)) ∧ counter_value s st ≤ n)
            (allocations s rest (exec o st))) as Hall'.
  { eapply Forall_impl; [exact Hall |]. intros cn (n & -> & Hn).
    exists n. split; [done |]. specialize (Hle s). lia. }
  destruct o as [b | b | id | phone | id b | id | b | | | | s'];
    cbn [allocations calls app];
    try (split; [exact Hlen | split; [exact Hall' | split; [exact Hnd1 | exact Hnd2]]]).
  destruct (decide (s' = s)) as [-> | Hne]; cbn [app];
    [| split; [exact Hlen | split; [exact Hall' | split; [exact Hnd1 | exact Hnd2]]]].
  destruct (nextId_wf s st Hwf) as (st' & Hrun & _ & Hs & _).
  destruct (current_of_wf s st Hwf) as [Hcur _].
  assert (exec (Allocate s) st = st') as Hexec by (simpl; by rewrite Hrun).
  rewrite Hexec in *. rewrite Hrun, Hcur. cbn [app length fmap list_fmap].
  set (n := counter_value s st) in *.
  split; [by rewrite Hlen | split; [| split]].
  - constructor; [| done]. exists n. split; [done | lia].
  - constructor; [| done]. intros Hin.
    apply list_elem_of_fmap in Hin as ([c v] & Hc & Hin). simpl in Hc. subst c.
    rewrite Forall_forall in Hall. destruct (Hall _ Hin) as (m & [= <- _] & Hm). lia.
  - constructor; [| done]. intros Hin.
    apply list_elem_of_fmap in Hin as ([c v] & Hv & Hin). simpl in Hv. subst v.
    rewrite Forall_forall in Hall. destruct (Hall _ Hin) as (m & [= _ Hm'] & Hm). lia.
Qed.

(** Serial schedules: N calls return N integers, no value is returned
    twice and no current value is read twice. *)
Lemma serial_allocations_distinct (s : string) (ops : list op) (st : db) :
  reachable st →
  length (allocations s ops st) = calls s ops
  ∧ Forall (λ cn, ∃ n, cn = (NInt n, NInt (n + 1))) (allocations s ops st)
  ∧ NoDup (allocations s ops st).*2
  ∧ NoDup (allocations s ops st).*1.
Proof.
  intros Hwf%reachable_wf.
  destruct (allocations_wf s ops st Hwf) as (Hlen & Hall & Hnd1 & Hnd2).
  repeat split; try done.
  eapply Forall_impl; [exact Hall |]. intros cn (n & -> & _). by exists n.
Qed.

(** *** Callers that race *)



(** A commit that goes through is a call of [nextId] on the store as it is. *)
Lemma commit_is_nextId s st :
  let '(staged, next) := nextId_tx (doc_get COUNTERS s st) in
  nextId s st = (Return next, doc_set COUNTERS s staged st).
Proof.
  unfold nextId, runTransaction. by destruct (nextId_tx (doc_get COUNTERS s st)).
Qed.



(** Callers do return: one that reads and commits with nothing in between
    is issued the successor of the stored value. *)
Lemma caller_can_return s i w :
  counters_wf (store w) →
  callers w !! i = Some Idle →
  callers (run s [Begin i; Commit i] w) !! i
  = Some (Returned (NInt (counter_value s (store w)))
                   (NInt (counter_value s (store w) + 1))).
Proof.
  intros Hwf Hi. unfold run. simpl. rewrite Hi. simpl.
  rewrite lookup_insert_eq, decide_True by done.
  pose proof (commit_is_nextId s (store w)) as Hcommit.
  destruct (nextId_tx (doc_get COUNTERS s (store w))) as [staged next].
  destruct (nextId_wf s (store w) Hwf) as (st' & Hrun & _).
  destruct (current_of_wf s (store w) Hwf) as [Hcur _].
  rewrite Hcommit in Hrun. injection Hrun as -> _. simpl.
  by rewrite lookup_insert_eq, Hcur.
Qed.


End Allocator.

(* ===================================================================== *)
(** ** The creators of the counter revision *)
(* ===================================================================== *)

Section Creators.

Context `{!Runtime}.

Import IdAlloc.

Lemma spread_lookup_r (a b : obj) k v : b !! k = Some v → spread a b !! k = Some v.
Proof. intros Hb. unfold spread. by apply lookup_union_Some_l. Qed.

Lemma spread_lookup_l (a b : obj) k : b !! k = None → spread a b !! k = a !! k.
Proof. intros Hb. unfold spread. by rewrite lookup_union_r. Qed.

Lemma falsy_or2 a b :
  falsy a || falsy b = false ↔ truthy a = true ∧ truthy b = true.
Proof. unfold falsy. destruct (truthy a), (truthy b); simpl; intuition congruence. Qed.

Lemma falsy_or3 a b c :
  falsy a || falsy b || falsy c = false
  ↔ truthy a = true ∧ truthy b = true ∧ truthy c = true.
Proof.
  unfold falsy. destruct (truthy a), (truthy b), (truthy c); simpl;
    intuition congruence.
Qed.

Lemma NumberToString_nonempty z : NumberToString (NInt z) ≠ "".
Proof.
  unfold NumberToString. destruct z as [| p | p]; [done | | done].
  simpl. pose proof (DecimalPos.Unsigned.to_uint_nonnil p) as Hnn.
  by destruct (Pos.to_uint p).
Qed.

Lemma truthy_JStr s : truthy (JStr s) = true ↔ s ≠ "".
Proof.
  simpl. destruct (String.eqb_spec s ""); simpl; intuition congruence.
Qed.

Lemma normalizeRoleInt_reject role :
  ToNumber (js_coalesce role (JNum (NInt 0))) ≠ NInt 0 →
  ToNumber (js_coalesce role (JNum (NInt 0))) ≠ NInt 1 →
  normalizeRoleInt role = Throw (JsError "role must be 0 or 1" (Some 400) None).
Proof.
  intros H0 H1. unfold normalizeRoleInt.
  destruct (ToNumber _) as [z | | r]; [| done | done]. simpl.
  destruct (Z.eqb_spec z 0) as [-> |]; [done |].
  destruct (Z.eqb_spec z 1) as [-> |]; done.
Qed.

Lemma assertPhoneNotDuplicate_fresh phone st :
  (∀ id u, doc_get USER_COL id st = Some u →
           u !! "phone" ≠ Some (JStr (ToString phone))) →
  assertPhoneNotDuplicate phone st = (Return (), st).
Proof.
  intros Hfresh. unfold assertPhoneNotDuplicate.
  by rewrite where_eq_nil.
Qed.

Lemma nextId_run s st :
  nextId s st =
    (Return (num_add (current_of (doc_get COUNTERS s st)) (NInt 1)),
     (nextId s st).2).
Proof.
  unfold nextId, runTransaction, nextId_tx. by destruct (doc_get COUNTERS s st).
Qed.

(** What [createUser] does once its checks pass. *)
Lemma createUser_run name password phone picture role r st :
  truthy name = true → truthy password = true → truthy phone = true →
  normalizeRoleInt role = Return r →
  (∀ id u, doc_get USER_COL id st = Some u →
           u !! "phone" ≠ Some (JStr (ToString phone))) →
  let idNum := num_add (current_of (doc_get COUNTERS "user_seq" st)) (NInt 1) in
  let id := ToString (JNum idNum) in
  let data : obj :=
    {[ "user_id" := JNum idNum;
       "name" := JStr (ToString name);
       "password" := JStr (ToString password);
       "phone" := JStr (ToString phone);
       "picture" := if truthy picture then JStr (ToString picture) else JNull;
       "role" := JNum r ]} in
  createUser name password phone picture role st =
    (Return (spread {[ "id" := JStr id ]} data),
     doc_set USER_COL id data (nextId "user_seq" st).2).
Proof.
  intros Hn Hp Hph Hrole Hfresh idNum id data. unfold createUser.
  replace (falsy name || falsy password || falsy phone) with false
    by (symmetry; by apply falsy_or3).
  unfold bind, lift, write, ret. rewrite Hrole.
  rewrite assertPhoneNotDuplicate_fresh by done.
  by rewrite nextId_run.
Qed.

Lemma createAddress_run user_id address lat lng st :
  truthy user_id = true → truthy address = true →
  let addrIdNum := num_add (current_of (doc_get COUNTERS "address_seq" st)) (NInt 1) in
  let addrId := ToString (JNum addrIdNum) in
  let payload : obj :=
    {[ "address_id" := JNum addrIdNum;
       "user_id" := if isNaN (ToNumber user_id)
                    then JStr (ToString user_id)
                    else JNum (ToNumber user_id);
       "address" := JStr (ToString address);
       "lat" := if loose_null lat then JNull else JNum (ToNumber lat);
       "lng" := if loose_null lng then JNull else JNum (ToNumber lng) ]} in
  createAddress user_id address lat lng st =
    (Return (spread {[ "id" := JStr addrId ]} payload),
     doc_set ADDR_COL addrId payload (nextId "address_seq" st).2).
Proof.
  intros Hu Ha addrIdNum addrId payload. unfold createAddress.
  replace (falsy user_id || falsy address) with false
    by (symmetry; by apply falsy_or2).
  unfold bind, write, ret. by rewrite nextId_run.
Qed.

Lemma createRiderCar_run user_id image_car plate_number car_type st :
  truthy user_id = true → truthy plate_number = true → truthy car_type = true →
  let riderIdNum := num_add (current_of (doc_get COUNTERS "rider_seq" st)) (NInt 1) in
  let riderId := ToString (JNum riderIdNum) in
  let payload : obj :=
    {[ "rider_id" := JNum riderIdNum;
       "user_id" := if isNaN (ToNumber user_id)
                    then JStr (ToString user_id)
                    else JNum (ToNumber user_id);
       "image_car" := if truthy image_car then JStr (ToString image_car) else JNull;
       "plate_number" := JStr (ToString plate_number);
       "car_type" := JStr (ToString car_type) ]} in
  createRiderCar user_id image_car plate_number car_type st =
    (Return (spread {[ "id" := JStr riderId ]} payload),
     doc_set RIDER_COL riderId payload (nextId "rider_seq" st).2).
Proof.
  intros Hu Hp Hc riderIdNum riderId payload. unfold createRiderCar.
  replace (falsy user_id || falsy plate_number || falsy car_type) with false
    by (symmetry; by apply falsy_or3).
  unfold bind, write, ret. by rewrite nextId_run.
Qed.

(** C5.  [createUser] throws the error with code 400 and leaves the
    database as it was when one of [name], [password], [phone] is falsy
    (empty or missing), and when the role, normalised by
    [Number(role ?? 0)], is neither 0 nor 1.  With [role] missing, valid
    fields and a phone nobody holds it returns a user whose role is 0 and
    stores that record. *)
Theorem createUser_validation (name password phone picture role : jsval) (st : db) :
  (truthy name = false ∨ truthy password = false ∨ truthy phone = false →
     createUser name password phone picture role st =
       (Throw (JsError "name, password, phone are required" (Some 400) None), st))
  ∧ (ToNumber (js_coalesce role (JNum (NInt 0))) ≠ NInt 0 →
     ToNumber (js_coalesce role (JNum (NInt 0))) ≠ NInt 1 →
     ∃ e, createUser name password phone picture role st = (Throw e, st)
          ∧ code e = Some 400)
  ∧ (role = JUndefined →
     truthy name = true → truthy password = true → truthy phone = true →
     (∀ id u, doc_get USER_COL id st = Some u →
              u !! "phone" ≠ Some (JStr (ToString phone))) →
     ∃ u st' id stored,
       createUser name password phone picture role st = (Return u, st')
       ∧ u !! "role" = Some (JNum (NInt 0))
       ∧ u !! "id" = Some (JStr id)
       ∧ doc_get USER_COL id st' = Some stored
       ∧ stored !! "role" = Some (JNum (NInt 0))).
Proof.
  split; [| split].
  - intros Hfalsy. unfold createUser.
    replace (falsy name || falsy password || falsy phone) with true; [done |].
    unfold falsy. destruct Hfalsy as [-> | [-> | ->]]; simpl;
      by rewrite ?orb_true_r.
  - intros H0 H1. unfold createUser.
    destruct (falsy name || falsy password || falsy phone); [by eexists |].
    unfold bind, lift. rewrite normalizeRoleInt_reject by done. by eexists.
  - intros -> Hn Hp Hph Hfresh.
    pose proof (createUser_run name password phone picture JUndefined (NInt 0) st
                  Hn Hp Hph eq_refl Hfresh) as Hrun.
    simpl in Hrun. do 4 eexists. split; [exact Hrun |].
    split; [| split; [| split]].
    + apply spread_lookup_r. by vm_compute.
    + rewrite spread_lookup_l by (by vm_compute). by rewrite lookup_singleton_eq.
    + apply doc_get_doc_set.
    + by vm_compute.
Qed.

(** A user that [createUser] returns carries the rendering of the
    allocated number as its [id], and sits in the store under that key. *)
Lemma createUser_inv name password phone picture role st u st1 :
  createUser name password phone picture role st = (Return u, st1) →
  let idNum := num_add (current_of (doc_get COUNTERS "user_seq" st)) (NInt 1) in
  u !! "id" = Some (JStr (ToString (JNum idNum)))
  ∧ u !! "user_id" = Some (JNum idNum)
  ∧ is_Some (doc_get USER_COL (ToString (JNum idNum)) st1).
Proof.
  unfold createUser.
  destruct (falsy name || falsy password || falsy phone); [done |].
  unfold bind, lift, write, ret.
  destruct (normalizeRoleInt role) as [r | e]; [| done].
  destruct (assertPhoneNotDuplicate phone st) as [[[] | e] st0] eqn:Hdup; [| done].
  assert (st0 = st) as ->.
  { revert Hdup. unfold assertPhoneNotDuplicate.
    destruct (limit 1 _) as [| [i d] l]; congruence. }
  rewrite nextId_run. intros [= <- <-]. split; [| split].
  - rewrite spread_lookup_l by (by vm_compute). by rewrite lookup_singleton_eq.
  - apply spread_lookup_r. by vm_compute.
  - rewrite doc_get_doc_set. by eexists.
Qed.

(** C10.  [createAddress] and [createRiderCar] store the foreign key
    [user_id], given as a string [s], as the number [Number(s)] when that
    is not [NaN] and as the string [s] otherwise.  In a reachable
    database every [id] that [createUser] returns is the decimal rendering
    of an integer [n]: the user sits under the string key [id], while
    both creators store the number [n] as [user_id]. *)
Theorem foreign_key_type :
  (∀ (s : string) address lat lng st,
     s ≠ "" → truthy address = true →
     ∃ a st' key stored,
       createAddress (JStr s) address lat lng st = (Return a, st')
       ∧ doc_get ADDR_COL key st' = Some stored
       ∧ stored !! "user_id" =
           Some (if isNaN (StringToNumber s) then JStr s else JNum (StringToNumber s)))
  ∧ (∀ (s : string) image_car plate_number car_type st,
     s ≠ "" → truthy plate_number = true → truthy car_type = true →
     ∃ rc st' key stored,
       createRiderCar (JStr s) image_car plate_number car_type st = (Return rc, st')
       ∧ doc_get RIDER_COL key st' = Some stored
       ∧ stored !! "user_id" =
           Some (if isNaN (StringToNumber s) then JStr s else JNum (StringToNumber s)))
  ∧ (∀ name password phone picture role st u st1,
     reachable st →
     createUser name password phone picture role st = (Return u, st1) →
     ∃ n id,
       u !! "id" = Some (JStr id)
       ∧ id = NumberToString (NInt n)
       ∧ is_Some (doc_get USER_COL id st1)
       ∧ (if isNaN (StringToNumber id) then JStr id else JNum (StringToNumber id))
         = JNum (NInt n)
       ∧ id ≠ ""
       ∧ typeof (JNum (NInt n)) ≠ typeof (JStr id)).
Proof.
  split; [| split].
  - intros s address lat lng st Hs Ha.
    pose proof (createAddress_run (JStr s) address lat lng st) as Hrun.
    simpl in Hrun. do 4 eexists. split; [apply Hrun; [by apply truthy_JStr | done] |].
    split; [apply doc_get_doc_set |]. by vm_compute.
  - intros s image_car plate_number car_type st Hs Hp Hc.
    pose proof (createRiderCar_run (JStr s) image_car plate_number car_type st) as Hrun.
    simpl in Hrun. do 4 eexists.
    split; [apply Hrun; [by apply truthy_JStr | done | done] |].
    split; [apply doc_get_doc_set |]. by vm_compute.
  - intros name password phone picture role st u st1 Hreach Hrun.
    apply createUser_inv in Hrun as (Hid & _ & Hstored).
    destruct (current_of_wf "user_seq" st (reachable_wf st Hreach)) as [Hcur _].
    rewrite Hcur in Hid, Hstored. simpl in Hid, Hstored.
    set (n := counter_value "user_seq" st + 1) in *.
    exists n, (NumberToString (NInt n)).
    split; [done | split; [done | split; [done | split; [| split]]]].
    + by rewrite StringToNumber_decimal.
    + apply NumberToString_nonempty.
    + done.
Qed.

End Creators.

(* ===================================================================== *)
(** ** The routes *)
(* ===================================================================== *)

Section Routes.

Context `{!Runtime}.

Lemma nextId_other_collection s name st :
  name ≠ IdAlloc.COUNTERS →
  collection_of name (IdAlloc.nextId s st).2 = collection_of name st.
Proof.
  intros Hne. unfold IdAlloc.nextId, IdAlloc.runTransaction, IdAlloc.nextId_tx.
  destruct (doc_get IdAlloc.COUNTERS s st); simpl;
    by rewrite collection_of_doc_set_ne.
Qed.

Lemma flat_error msg : flat {[ "error" := JStr msg ]} = error_body msg.
Proof. unfold flat, error_body. by rewrite map_fmap_singleton. Qed.

Lemma catch_register_plain msg c :
  IdAlloc.catch_register (JsError msg (Some c) None) =
    {| status := if c =? 0 then 400 else c; body := error_body msg |}.
Proof.
  unfold IdAlloc.catch_register, code_or, payload_or_empty, spread. simpl.
  by rewrite (left_id_L ∅ (∪)), flat_error.
Qed.

Lemma catch_with_payload_plain msg c :
  AutoKey.catch_with_payload (JsError msg (Some c) None) =
    {| status := if c =? 0 then 400 else c; body := error_body msg |}.
Proof.
  unfold AutoKey.catch_with_payload, code_or, payload_or_empty, spread. simpl.
  by rewrite (left_id_L ∅ (∪)), flat_error.
Qed.

Lemma AutoKey_assertPhoneNotDuplicate_fresh phone st :
  (∀ id u, doc_get "user" id st = Some u →
           u !! "phone" ≠ Some (JStr (ToString phone))) →
  AutoKey.assertPhoneNotDuplicate phone st = (Return (), st).
Proof.
  intros Hfresh. unfold AutoKey.assertPhoneNotDuplicate.
  by rewrite where_eq_nil.
Qed.

(** What the keyed [createUser] does once its checks pass. *)
Lemma AutoKey_createUser_run key name password phone picture role r st :
  truthy name = true → truthy password = true → truthy phone = true →
  match role with JUndefined => NInt 0 | _ => ToNumber role end = r →
  AutoKey.includes01 r = true →
  (∀ id u, doc_get "user" id st = Some u →
           u !! "phone" ≠ Some (JStr (ToString phone))) →
  let data : obj :=
    {[ "name" := JStr (ToString name);
       "password" := JStr (ToString password);
       "phone" := JStr (ToString phone);
       "picture" := if truthy picture then JStr (ToString picture) else JNull;
       "role" := JNum r ]} in
  AutoKey.createUser key name password phone picture role st =
    (Return (spread {[ "id" := JStr key ]} data), doc_set "user" key data st).
Proof.
  intros Hn Hp Hph Hrole Hin Hfresh data. unfold AutoKey.createUser.
  replace (falsy name || falsy password || falsy phone) with false
    by (symmetry; by apply falsy_or3).
  rewrite Hrole, Hin. simpl.
  unfold bind, AutoKey.add_then_get, bind, write, read, ret.
  rewrite AutoKey_assertPhoneNotDuplicate_fresh by done.
  unfold AutoKey.USER_COL. by rewrite doc_get_doc_set.
Qed.

(** C8.  A rider registration whose user part is valid and whose
    [plate_number] or [car_type] is missing answers 400 after the user
    has been stored: in both revisions the database it leaves holds the
    new user with role 1, and the vehicle collection is as before. *)
Theorem register_rider_no_rollback (b : obj) (st : db) :
  truthy (prop b "name") = true →
  truthy (prop b "password") = true →
  truthy (prop b "phone") = true →
  (∀ id u, doc_get "user" id st = Some u →
           u !! "phone" ≠ Some (JStr (ToString (prop b "phone")))) →
  truthy (prop b "plate_number") = false ∨ truthy (prop b "car_type") = false →
  (∃ st' id u,
     IdAlloc.register_rider b st =
       ({| status := 400;
           body := error_body "user_id, plate_number, car_type are required" |}, st')
     ∧ doc_get "user" id st' = Some u
     ∧ u !! "role" = Some (JNum (NInt 1))
     ∧ u !! "phone" = Some (JStr (ToString (prop b "phone")))
     ∧ collection_of "rider_car" st' = collection_of "rider_car" st)
  ∧ (∀ ukey ckey, ∃ st' u,
     AutoKey.register_rider ukey ckey b st =
       ({| status := 400;
           body := error_body "user_id, plate_number, car_type are required" |}, st')
     ∧ doc_get "user" ukey st' = Some u
     ∧ u !! "role" = Some (JNum (NInt 1))
     ∧ u !! "phone" = Some (JStr (ToString (prop b "phone")))
     ∧ collection_of "rider_car" st' = collection_of "rider_car" st).
Proof.
  intros Hn Hp Hph Hfresh Hcar.
  assert (∀ user_id, falsy user_id || falsy (prop b "plate_number")
                     || falsy (prop b "car_type") = true) as Hbad.
  { intros user_id. unfold falsy.
    destruct Hcar as [-> | ->]; simpl; by rewrite ?orb_true_r. }
  split.
  - pose proof (createUser_run (prop b "name") (prop b "password") (prop b "phone")
                  (prop b "picture") (JNum (NInt 1)) (NInt 1) st
                  Hn Hp Hph eq_refl Hfresh) as Hrun.
    simpl in Hrun. unfold IdAlloc.register_rider, bind at 1. rewrite Hrun.
    unfold bind, IdAlloc.createRiderCar. rewrite Hbad. unfold throw.
    rewrite catch_register_plain. simpl.
    do 3 eexists. split; [reflexivity |].
    split; [apply doc_get_doc_set |].
    split; [by vm_compute | split; [by vm_compute |]].
    rewrite collection_of_doc_set_ne by done.
    by apply nextId_other_collection.
  - intros ukey ckey.
    pose proof (AutoKey_createUser_run ukey (prop b "name") (prop b "password")
                  (prop b "phone") (prop b "picture") (JNum (NInt 1)) (NInt 1) st
                  Hn Hp Hph eq_refl eq_refl Hfresh) as Hrun.
    simpl in Hrun. unfold AutoKey.register_rider, bind at 1. rewrite Hrun.
    unfold bind, AutoKey.createRiderCar. rewrite Hbad. unfold throw.
    rewrite catch_with_payload_plain. simpl.
    do 2 eexists. split; [reflexivity |].
    split; [apply doc_get_doc_set |].
    split; [by vm_compute | split; [by vm_compute |]].
    by rewrite collection_of_doc_set_ne.
Qed.

(** C7.  When exactly one stored user holds the phone of the request:
    if the stored password renders as the submitted one, both revisions
    answer 200 with exactly [id], [name], [phone] and [role] of that user
    (the counter revision passes [role] through [Number]) and no
    [password]; if it does not, both answer 401.  The database is not
    written. *)
Theorem login_spec (b : obj) (st : db) (id : string) (u : doc) :
  truthy (prop b "phone") = true →
  truthy (prop b "password") = true →
  doc_get "user" id st = Some u →
  u !! "phone" = Some (JStr (ToString (prop b "phone"))) →
  (∀ id' u', doc_get "user" id' st = Some u' →
             u' !! "phone" = Some (JStr (ToString (prop b "phone"))) → id' = id) →
  (ToString (prop u "password") = ToString (prop b "password") →
     IdAlloc.login b st =
       ({| status := 200;
           body := flat {[ "id" := JStr id;
                           "name" := prop u "name";
                           "phone" := prop u "phone";
                           "role" := JNum (ToNumber (prop u "role")) ]} |}, st)
     ∧ AutoKey.login b st =
       ({| status := 200;
           body := flat {[ "id" := JStr id;
                           "name" := prop u "name";
                           "phone" := prop u "phone";
                           "role" := prop u "role" ]} |}, st)
     ∧ body (IdAlloc.login b st).1 !! "password" = None
     ∧ body (AutoKey.login b st).1 !! "password" = None
     ∧ dom (body (IdAlloc.login b st).1) = {[ "id"; "name"; "phone"; "role" ]}
     ∧ dom (body (AutoKey.login b st).1) = {[ "id"; "name"; "phone"; "role" ]})
  ∧ (ToString (prop u "password") ≠ ToString (prop b "password") →
     IdAlloc.login b st =
       ({| status := 401; body := error_body "invalid credentials" |}, st)
     ∧ AutoKey.login b st =
       ({| status := 401; body := error_body "invalid credentials" |}, st)).
Proof.
  intros Hph Hpw Hu Hphone Huniq.
  assert (falsy (prop b "phone") || falsy (prop b "password") = false) as Hchk
    by (by apply falsy_or2).
  assert (limit 1 (where_eq "phone" (JStr (ToString (prop b "phone")))
                     (collection_of "user" st)) = [(id, u)]) as Hq.
  { by rewrite (where_eq_unique _ _ _ id u). }
  split.
  - intros Hsame.
    assert (IdAlloc.login b st =
      ({| status := 200;
          body := flat {[ "id" := JStr id;
                          "name" := prop u "name";
                          "phone" := prop u "phone";
                          "role" := JNum (ToNumber (prop u "role")) ]} |}, st)) as HA.
    { unfold IdAlloc.login. rewrite Hchk. unfold IdAlloc.USER_COL. rewrite Hq.
      unfold str_strict_neq. rewrite Hsame, String.eqb_refl. done. }
    assert (AutoKey.login b st =
      ({| status := 200;
          body := flat {[ "id" := JStr id;
                          "name" := prop u "name";
                          "phone" := prop u "phone";
                          "role" := prop u "role" ]} |}, st)) as HB.
    { unfold AutoKey.login. rewrite Hchk. unfold AutoKey.USER_COL. rewrite Hq.
      unfold str_strict_neq. rewrite Hsame, String.eqb_refl. done. }
    rewrite HA, HB. simpl. repeat split; by vm_compute.
  - intros Hdiff.
    assert (str_strict_neq (ToString (prop u "password"))
              (ToString (prop b "password")) = true) as Hneq.
    { unfold str_strict_neq. by destruct (String.eqb_spec
        (ToString (prop u "password")) (ToString (prop b "password"))). }
    split.
    + unfold IdAlloc.login. rewrite Hchk. unfold IdAlloc.USER_COL.
      by rewrite Hq, Hneq.
    + unfold AutoKey.login. rewrite Hchk. unfold AutoKey.USER_COL.
      by rewrite Hq, Hneq.
Qed.

(** *** The duplicate guard *)

(** Both guards throw the 409 error as soon as some user holds the
    phone; the keyed revision attaches [id], [phone] and [name] of the
    record found, the counter revision the whole record. *)
Lemma assertPhoneNotDuplicate_conflict phone st id u :
  doc_get "user" id st = Some u →
  u !! "phone" = Some (JStr (ToString phone)) →
  ∃ id' u',
    doc_get "user" id' st = Some u'
    ∧ u' !! "phone" = Some (JStr (ToString phone))
    ∧ AutoKey.assertPhoneNotDuplicate phone st =
        (Throw (JsError "phone already exists" (Some 409)
                  (Some {[ "id" := JStr id';
                           "phone" := prop u' "phone";
                           "name" := prop u' "name" ]})), st)
    ∧ IdAlloc.assertPhoneNotDuplicate phone st =
        (Throw (JsError "phone already exists" (Some 409)
                  (Some (spread {[ "id" := JStr id' ]} u'))), st).
Proof.
  intros Hu Hphone.
  destruct (where_eq_cons "phone" (JStr (ToString phone)) (collection_of "user" st)
              id u Hu Hphone) as (id' & u' & l & Hq & Hu' & Hphone').
  exists id', u'. split; [done | split; [done |]].
  unfold AutoKey.assertPhoneNotDuplicate, IdAlloc.assertPhoneNotDuplicate,
    AutoKey.USER_COL, IdAlloc.USER_COL.
  by rewrite Hq.
Qed.

(** A [createUser] with valid fields and a phone already held fails with
    the 409 error in both revisions and writes nothing.  The keyed revision
    attaches exactly [id], [phone] and [name]; the counter revision every
    field of the stored record. *)
Lemma createUser_conflict name password phone picture role r st id u :
  truthy name = true → truthy password = true → truthy phone = true →
  IdAlloc.normalizeRoleInt role = Return r →
  AutoKey.includes01 (match role with JUndefined => NInt 0 | _ => ToNumber role end)
  = true →
  doc_get "user" id st = Some u →
  u !! "phone" = Some (JStr (ToString phone)) →
  (∀ key, ∃ e, AutoKey.createUser key name password phone picture role st
               = (Throw e, st)
               ∧ code e = Some 409
               ∧ ∃ p, payload e = Some p ∧ dom p = {[ "id"; "phone"; "name" ]})
  ∧ (∃ e, IdAlloc.createUser name password phone picture role st = (Throw e, st)
          ∧ code e = Some 409
          ∧ ∃ p id' u', payload e = Some p ∧ doc_get "user" id' st = Some u'
                        ∧ ∀ k v, u' !! k = Some v → p !! k = Some v).
Proof.
  intros Hn Hp Hph Hrole Hin Hu Hphone.
  destruct (assertPhoneNotDuplicate_conflict phone st id u Hu Hphone)
    as (id' & u' & Hu' & Hphone' & HA & HB).
  assert (falsy name || falsy password || falsy phone = false) as Hchk
    by (by apply falsy_or3).
  split.
  - intros key. unfold AutoKey.createUser. rewrite Hchk, Hin. simpl.
    unfold bind. rewrite HA. eexists. split; [reflexivity |].
    split; [done |]. eexists. split; [done |]. by vm_compute.
  - unfold IdAlloc.createUser. rewrite Hchk.
    unfold bind, lift. rewrite Hrole, HB. eexists. split; [reflexivity |].
    split; [done |]. exists (spread {[ "id" := JStr id' ]} u'), id', u'.
    split; [done | split; [done |]]. intros k v Hk. by apply spread_lookup_r.
Qed.

Lemma register_user_created (b : obj) (st : db) :
  truthy (prop b "name") = true →
  truthy (prop b "password") = true →
  truthy (prop b "phone") = true →
  (∀ id u, doc_get "user" id st = Some u →
           u !! "phone" ≠ Some (JStr (ToString (prop b "phone")))) →
  status (IdAlloc.register_user b st).1 = 201
  ∧ ∀ key, status (AutoKey.register_user key b st).1 = 201
           ∧ status (AutoKey.post_users key (delete "role" b) st).1 = 201.
Proof.
  intros Hn Hp Hph Hfresh. split; [| intros key; split].
  - pose proof (createUser_run (prop b "name") (prop b "password") (prop b "phone")
                  (prop b "picture") (JNum (NInt 0)) (NInt 0) st
                  Hn Hp Hph eq_refl Hfresh) as Hrun.
    simpl in Hrun. unfold IdAlloc.register_user. by rewrite Hrun.
  - pose proof (AutoKey_createUser_run key (prop b "name") (prop b "password")
                  (prop b "phone") (prop b "picture") (JNum (NInt 0)) (NInt 0) st
                  Hn Hp Hph eq_refl eq_refl Hfresh) as Hrun.
    simpl in Hrun. unfold AutoKey.register_user. by rewrite Hrun.
  - assert (∀ k, k ≠ "role" → prop (delete "role" b) k = prop b k) as Hk.
    { intros k Hne. unfold prop. by rewrite lookup_delete_ne. }
    assert (prop (delete "role" b) "role" = JUndefined) as Hrole.
    { unfold prop. by rewrite lookup_delete_eq. }
    pose proof (AutoKey_createUser_run key (prop b "name") (prop b "password")
                  (prop b "phone") (prop b "picture") JUndefined (NInt 0) st
                  Hn Hp Hph eq_refl eq_refl Hfresh) as Hrun.
    simpl in Hrun. unfold AutoKey.post_users.
    rewrite !Hk by done. rewrite Hrole. by rewrite Hrun.
Qed.


End Routes.

(* ===================================================================== *)
(** ** The model run on the sample requests *)
(* ===================================================================== *)

Lemma empty_has_no_user (phone : string) :
  ∀ id u, doc_get "user" id (∅ : db) = Some u → u !! "phone" ≠ Some (JStr phone).
Proof. intros id u Hu. unfold doc_get, collection_of in Hu. by rewrite lookup_empty in Hu. Qed.

Lemma after_alice_users :
  collection_of "user" Sample.after_alice = {[ "1" := Sample.alice_record ]}.
Proof. by vm_compute. Qed.

Lemma nextId_spec_witness :
  ∃ st', @IdAlloc.nextId decimal_runtime "user_seq" Sample.after_alice
         = (Return (NInt 2), st')
         ∧ prop (default ∅ (doc_get "_counters" "user_seq" st')) "value" = JNum (NInt 2).
Proof.
  destruct (@nextId_spec decimal_runtime "user_seq" Sample.after_alice)
    as (st' & Hrun & (d' & Hd' & Hv) & _).
  exists st'. split; [exact Hrun |].
  unfold IdAlloc.COUNTERS in Hd'. rewrite Hd'. simpl. unfold prop. by rewrite Hv.
Defined.


Lemma serial_allocations_run :
  @IdAlloc.allocations decimal_runtime "user_seq" Sample.schedule ∅
  = [(NInt 0, NInt 1); (NInt 2, NInt 3); (NInt 3, NInt 4)].
Proof. by vm_compute. Qed.


Lemma createUser_validation_witness :
  (∃ e, @IdAlloc.createUser decimal_runtime (JStr "A") (JStr "x") (JStr "1")
          JUndefined (JNum (NInt 2)) ∅ = (Throw e, ∅) ∧ code e = Some 400)
  ∧ @IdAlloc.createUser decimal_runtime (JStr "A") (JStr "") (JStr "1")
      JUndefined JUndefined ∅
    = (Throw (JsError "name, password, phone are required" (Some 400) None), ∅)
  ∧ ∃ u st' id stored,
      @IdAlloc.createUser decimal_runtime (JStr "A") (JStr "x") (JStr "1")
        JUndefined JUndefined ∅ = (Return u, st')
      ∧ u !! "role" = Some (JNum (NInt 0))
      ∧ u !! "id" = Some (JStr id)
      ∧ doc_get "user" id st' = Some stored
      ∧ stored !! "role" = Some (JNum (NInt 0)).
Proof.
  split; [| split].
  - apply (@createUser_validation decimal_runtime (JStr "A") (JStr "x") (JStr "1")
             JUndefined (JNum (NInt 2)) ∅); by vm_compute.
  - apply (@createUser_validation decimal_runtime (JStr "A") (JStr "") (JStr "1")
             JUndefined JUndefined ∅). right. left. reflexivity.
  - apply (@createUser_validation decimal_runtime (JStr "A") (JStr "x") (JStr "1")
             JUndefined JUndefined ∅); try reflexivity.
    apply empty_has_no_user.
Defined.

Lemma login_spec_witness :
  @IdAlloc.login decimal_runtime Sample.alice_login Sample.after_alice
  = ({| status := 200;
        body := flat {[ "id" := JStr "1"; "name" := JStr "A";
                        "phone" := JStr "0800000001"; "role" := JNum (NInt 0) ]} |},
     Sample.after_alice)
  ∧ @IdAlloc.login decimal_runtime (<["password" := JStr "wrong"]> Sample.alice_login)
      Sample.after_alice
    = ({| status := 401; body := error_body "invalid credentials" |}, Sample.after_alice).
Proof.
  assert (∀ id' u', doc_get "user" id' Sample.after_alice = Some u' → id' = "1") as Huniq.
  { intros id' u'. unfold doc_get. rewrite after_alice_users.
    by intros [-> _]%lookup_singleton_Some. }
  split.
  - apply (@login_spec decimal_runtime Sample.alice_login Sample.after_alice
             "1" Sample.alice_record); try reflexivity.
    intros id' u' Hu' _. by apply (Huniq id' u').
  - apply (@login_spec decimal_runtime (<["password" := JStr "wrong"]> Sample.alice_login)
             Sample.after_alice "1" Sample.alice_record); try reflexivity.
    + intros id' u' Hu' _. by apply (Huniq id' u').
    + by vm_compute.
Defined.

Lemma register_rider_no_rollback_witness :
  ∃ st' id u,
    @IdAlloc.register_rider decimal_runtime Sample.rider_without_plate ∅
    = ({| status := 400;
          body := error_body "user_id, plate_number, car_type are required" |}, st')
    ∧ doc_get "user" id st' = Some u
    ∧ u !! "role" = Some (JNum (NInt 1))
    ∧ u !! "phone" = Some (JStr "0800000002")
    ∧ collection_of "rider_car" st' = collection_of "rider_car" ∅.
Proof.
  apply (@register_rider_no_rollback decimal_runtime Sample.rider_without_plate ∅);
    try reflexivity.
  - apply empty_has_no_user.
  - left. reflexivity.
Defined.

Lemma foreign_key_type_witness :
  (∃ a st' key stored,
     @IdAlloc.createAddress decimal_runtime (JStr "1") (JStr "home") JUndefined
       JUndefined Sample.after_alice = (Return a, st')
     ∧ doc_get "user_address" key st' = Some stored
     ∧ stored !! "user_id" = Some (JNum (NInt 1)))
  ∧ (∃ a st' key stored,
     @IdAlloc.createAddress decimal_runtime (JStr "abc") (JStr "home") JUndefined
       JUndefined Sample.after_alice = (Return a, st')
     ∧ doc_get "user_address" key st' = Some stored
     ∧ stored !! "user_id" = Some (JStr "abc")).
Proof.
  split.
  - apply (@foreign_key_type decimal_runtime); by vm_compute.
  - apply (@foreign_key_type decimal_runtime); by vm_compute.
Defined.



(** C4 on the counter revision: registering [alice] twice answers 201 and
    then 409, and the 409 error carries the whole stored record, the
    password included, which the route copies into its answer. *)
Example conflict_payload_carries_record :
  status (@IdAlloc.register_user decimal_runtime Sample.alice ∅).1 = 201
  ∧ (@IdAlloc.createUser decimal_runtime (JStr "A") (JStr "x") (JStr "0800000001")
       JUndefined (JNum (NInt 0)) Sample.after_alice).1
    = Throw (JsError "phone already exists" (Some 409)
               (Some (<["id" := JStr "1"]> Sample.alice_record)))
  ∧ status (@IdAlloc.register_user decimal_runtime Sample.alice Sample.after_alice).1 = 409
  ∧ body (@IdAlloc.register_user decimal_runtime Sample.alice Sample.after_alice).1
      !! "password" = Some (FVal (JStr "x"))
  ∧ dom (body (@IdAlloc.register_user decimal_runtime Sample.alice Sample.after_alice).1)
    = {[ "error"; "id"; "user_id"; "name"; "password"; "phone"; "picture"; "role" ]}.
Proof. repeat split; by vm_compute. Qed.

(* ===================================================================== *)
(** ** The users of the counter revision *)
(* ===================================================================== *)

Section Users.

Context `{!Runtime}.

Import IdAlloc.

Lemma where_eq_nil_inv f v (c : collection) :
  where_eq f v c = [] → ∀ id d, c !! id = Some d → d !! f ≠ Some v.
Proof.
  intros Hnil id d Hc Hd.
  assert ((id, d) ∈ where_eq f v c) as Hin by (by apply elem_of_where_eq).
  rewrite Hnil in Hin. by apply elem_of_nil in Hin.
Qed.

Lemma limit1_nil (l : list (string * doc)) : limit 1 l = [] → l = [].
Proof. by destruct l. Qed.

Lemma limit1_cons (l : list (string * doc)) x l' :
  limit 1 l = x :: l' → ∃ l'', l = x :: l''.
Proof. destruct l as [| y l'']; [done |]. simpl. intros [= -> _]. by eexists. Qed.

(** The first document a query returns is stored and holds the value. *)
Lemma limit1_where_eq f v (c : collection) id d l :
  limit 1 (where_eq f v c) = (id, d) :: l → c !! id = Some d ∧ d !! f = Some v.
Proof.
  intros [l'' Hq]%limit1_cons. apply elem_of_where_eq. rewrite Hq. left.
Qed.


Lemma normalizeRoleInt_Return role r :
  normalizeRoleInt role = Return r → r = NInt 0 ∨ r = NInt 1.
Proof.
  unfold normalizeRoleInt.
  destruct (ToNumber _) as [z | | s]; simpl; [| done | done].
  destruct (Z.eqb_spec z 0) as [-> |]; simpl; [intros [= <-]; by left |].
  destruct (Z.eqb_spec z 1) as [-> |]; simpl; [intros [= <-]; by right | done].
Qed.

(** The patch of a [PATCH] holds the allowed properties of the body and
    nothing else. *)
Lemma pick_allowed_lookup (b : obj) k :
  pick_allowed b !! k = if decide (k ∈ allowed) then b !! k else None.
Proof.
  unfold pick_allowed.
  assert (∀ (l : list string) (acc : obj),
    foldl (λ patch k0, match b !! k0 with
                       | Some v => <[k0 := v]> patch
                       | None => patch
                       end) acc l !! k
    = if decide (k ∈ l)
      then match b !! k with Some v => Some v | None => acc !! k end
      else acc !! k) as Hgen.
  { induction l as [| a l IH]; intros acc; cbn [foldl].
    - rewrite decide_False; [done | by intros ?%elem_of_nil].
    - rewrite IH. destruct (decide (k ∈ l)) as [Hin | Hnin].
      + rewrite decide_True by (by right).
        destruct (b !! k) as [v |] eqn:Hk; [done |].
        destruct (b !! a) as [w |] eqn:Ha; [| done].
        rewrite lookup_insert_ne; [done | congruence].
      + destruct (decide (a = k)) as [-> | Hne].
        * rewrite decide_True by left.
          destruct (b !! k) as [v |]; [by rewrite lookup_insert_eq | done].
        * rewrite decide_False by (intros [? | ?]%elem_of_cons; congruence).
          destruct (b !! a) as [w |]; [by rewrite lookup_insert_ne | done]. }
  rewrite Hgen. rewrite lookup_empty. by destruct (b !! k).
Qed.

Lemma spread_lookup (a b : obj) k :
  spread a b !! k = match b !! k with Some v => Some v | None => a !! k end.
Proof.
  unfold spread. rewrite lookup_union. by destruct (b !! k), (a !! k).
Qed.

(** *** What each operation does to the users *)

Lemma nextId_users s st :
  collection_of USER_COL (nextId s st).2 = collection_of USER_COL st.
Proof. by apply nextId_other_collection. Qed.

(** [createUser] either leaves the database as it was and throws the 400 or
    the 409 error, or stores one user under the rendering of the number it
    allocated, on a phone nobody held. *)
Lemma createUser_cases name password phone picture role st :
  (∃ e, createUser name password phone picture role st = (Throw e, st)
        ∧ (code e = Some 400 ∨ code e = Some 409))
  ∨ (∃ r,
       truthy name = true ∧ truthy password = true ∧ truthy phone = true
       ∧ normalizeRoleInt role = Return r
       ∧ (∀ id u, doc_get USER_COL id st = Some u →
                  u !! "phone" ≠ Some (JStr (ToString phone)))
       ∧ let idNum := num_add (current_of (doc_get COUNTERS "user_seq" st)) (NInt 1) in
         let id := ToString (JNum idNum) in
         let data : obj :=
           {[ "user_id" := JNum idNum;
              "name" := JStr (ToString name);
              "password" := JStr (ToString password);
              "phone" := JStr (ToString phone);
              "picture" := if truthy picture then JStr (ToString picture) else JNull;
              "role" := JNum r ]} in
         createUser name password phone picture role st =
           (Return (spread {[ "id" := JStr id ]} data),
            doc_set USER_COL id data (nextId "user_seq" st).2)).
Proof.
  destruct (falsy name || falsy password || falsy phone) eqn:Hchk.
  { left. unfold createUser. rewrite Hchk. eexists. split; [done | by left]. }
  apply falsy_or3 in Hchk as (Hn & Hp & Hph).
  destruct (normalizeRoleInt role) as [r | e] eqn:Hrole.
  2:{ left. unfold createUser.
      replace (falsy name || falsy password || falsy phone) with false
        by (symmetry; by apply falsy_or3).
      unfold bind, lift. rewrite Hrole. eexists. split; [done |].
      revert Hrole. unfold normalizeRoleInt. destruct (_ && _); [| done].
      intros [= <-]. by left. }
  destruct (limit 1 (where_eq "phone" (JStr (ToString phone))
                       (collection_of USER_COL st))) as [| [i d] l] eqn:Hq.
  - right. exists r. apply limit1_nil in Hq.
    assert (∀ id u, doc_get USER_COL id st = Some u →
                    u !! "phone" ≠ Some (JStr (ToString phone))) as Hfresh.
    { intros id u. by apply where_eq_nil_inv. }
    repeat split; try done. by apply createUser_run.
  - left. unfold createUser.
    replace (falsy name || falsy password || falsy phone) with false
      by (symmetry; by apply falsy_or3).
    unfold bind, lift. rewrite Hrole. unfold assertPhoneNotDuplicate. rewrite Hq.
    eexists. split; [done | by right].
Qed.

Lemma counters_doc_set_other name id d st :
  name ≠ COUNTERS →
  (∀ s, doc_get COUNTERS s (doc_set name id d st) = doc_get COUNTERS s st)
  ∧ (∀ s, counter_value s (doc_set name id d st) = counter_value s st).
Proof.
  intros Hne.
  assert (∀ s, doc_get COUNTERS s (doc_set name id d st) = doc_get COUNTERS s st) as Hget.
  { intros s. unfold doc_get. by rewrite collection_of_doc_set_ne. }
  split; [done |]. intros s. unfold counter_value. by rewrite Hget.
Qed.

(** An operation that leaves the users alone and lets the counters grow
    keeps the invariant. *)
Lemma inv_frame st st' :
  service_inv st →
  collection_of USER_COL st' = collection_of USER_COL st →
  grows st st' →
  service_inv st'.
Proof.
  intros (Hwf & Husers & Huniq) Hsame Hgrows.
  destruct (Hgrows Hwf) as [Hwf' Hle]. split; [done | split].
  - intros id u Hu. unfold doc_get in Hu. rewrite Hsame in Hu.
    destruct (Husers id u Hu) as (n & -> & Hn & Hid & Hrole).
    exists n. repeat split; try done; try lia.
    specialize (Hle "user_seq"). lia.
  - intros id1 id2 u1 u2 p Hp H1 H2. unfold doc_get in H1, H2.
    rewrite Hsame in H1, H2. by apply Huniq.
Qed.

Lemma inv_createUser name password phone picture role st :
  service_inv st → service_inv (createUser name password phone picture role st).2.
Proof.
  intros Hinv.
  destruct (createUser_cases name password phone picture role st)
    as [(e & -> & _) | (r & Hn & Hp & Hph & Hrole & Hfresh & Hrun)]; [done |].
  simpl in Hrun. rewrite Hrun. simpl.
  destruct Hinv as (Hwf & Husers & Huniq).
  destruct (nextId_wf "user_seq" st Hwf) as (st1 & Hnext & Hwf1 & Hcv1 & _).
  destruct (current_of_wf "user_seq" st Hwf) as [Hcur Hpos].
  pose proof (nextId_users "user_seq" st) as Hsame.
  rewrite Hnext in Hsame |- *. simpl in Hsame |- *. rewrite Hcur. simpl.
  set (n := counter_value "user_seq" st) in *.
  set (id := NilZero.string_of_int (Z.to_int (n + 1))).
  match goal with |- service_inv (doc_set _ _ ?d _) => set (data := d) end.
  destruct (counters_doc_set_other USER_COL id data st1) as [Hget Hval]; [done |].
  apply normalizeRoleInt_Return in Hrole.
  split; [| split].
  - intros s d. rewrite Hget. apply Hwf1.
  - intros id' u. rewrite Hval, Hcv1.
    destruct (decide (id' = id)) as [-> | Hne].
    + rewrite doc_get_doc_set. intros [= <-]. exists (n + 1).
      split; [done | split; [lia | split; [by vm_compute |]]].
      destruct Hrole as [-> | ->]; [left | right]; by vm_compute.
    + rewrite doc_get_doc_set_ne by done. unfold doc_get. rewrite Hsame.
      intros Hu. destruct (Husers id' u Hu) as (m & -> & Hm & Hid & Hr).
      exists m. repeat split; try done; lia.
  - assert (data !! "phone" = Some (JStr (ToString phone))) as Hdata by (by vm_compute).
    assert (∀ i u, i ≠ id → doc_get USER_COL i (doc_set USER_COL id data st1) = Some u →
                   doc_get USER_COL i st = Some u) as Hold.
    { intros i u Hi. rewrite doc_get_doc_set_ne by done. unfold doc_get.
      by rewrite Hsame. }
    intros id1 id2 u1 u2 p Hp' H1 H2 Hp1 Hp2.
    destruct (decide (id1 = id)) as [-> | Hne1], (decide (id2 = id)) as [-> | Hne2];
      try done.
    + rewrite doc_get_doc_set in H1. injection H1 as <-.
      apply Hold in H2; [| done]. destruct (Hfresh id2 u2 H2). congruence.
    + rewrite doc_get_doc_set in H2. injection H2 as <-.
      apply Hold in H1; [| done]. destruct (Hfresh id1 u1 H1). congruence.
    + apply Hold in H1; [| done]. apply Hold in H2; [| done].
      by apply (Huniq id1 id2 u1 u2 p).
Qed.

(** [PATCH /users/:id] either leaves the database as it was, or answers 200
    and merges a checked patch into the user. *)
Lemma patch_user_cases id b st :
  ((patch_user id b st).2 = st ∧ status (patch_user id b st).1 ≠ 200)
  ∨ ∃ u patch,
      doc_get USER_COL id st = Some u
      ∧ patch_user id b st =
          ({| status := 200;
              body := flat (spread {[ "id" := JStr id ]} (spread u patch)) |},
           doc_set USER_COL id (spread u patch) st)
      ∧ patch_checked b st u patch.
Proof.
  unfold patch_user. destruct (doc_get USER_COL id st) as [u |] eqn:Hu; [| by left].
  cbv zeta.
  match goal with
  | |- context [match ?x with Return _ => _ | Throw _ => _ end] =>
      destruct x as [patch | e] eqn:Hnorm
  end; [| by left].
  assert ((∀ k, k ∉ allowed → patch !! k = None)
          ∧ (∀ k, k ≠ "role" → patch !! k = pick_allowed b !! k)
          ∧ (∀ v, patch !! "role" = Some v → v = JNum (NInt 0) ∨ v = JNum (NInt 1)))
    as (Hallowed & Hsame & Hrole).
  { destruct (pick_allowed b !! "role") as [role |] eqn:Hr.
    - destruct (normalizeRoleInt role) as [r |] eqn:Hn; [| done].
      injection Hnorm as <-. apply normalizeRoleInt_Return in Hn.
      split; [| split].
      + intros k Hk. rewrite lookup_insert_ne.
        * rewrite pick_allowed_lookup. by rewrite decide_False.
        * intros Heq. apply Hk. rewrite <- Heq. unfold allowed. repeat constructor.
      + intros k Hk. by rewrite lookup_insert_ne.
      + intros v. rewrite lookup_insert_eq. intros [= <-].
        destruct Hn as [-> | ->]; [by left | by right].
    - injection Hnorm as <-. split; [| split]; [| done | congruence].
      intros k Hk. rewrite pick_allowed_lookup. by rewrite decide_False. }
  clear Hnorm.
  assert (doc_update USER_COL id patch st =
            if decide (patch = ∅)
            then (Throw (JsError "At least one field must be updated." None None), st)
            else (Return (), doc_set USER_COL id (spread u patch) st)) as Hupd.
  { unfold doc_update. by rewrite Hu. }
  destruct (truthy (prop patch "phone")) eqn:Htruthy.
  - destruct (limit 1 _) as [| [other d] l] eqn:Hq.
    + rewrite Hupd. destruct (decide (patch = ∅)); [by left |].
      right. exists u, patch. rewrite doc_get_doc_set. simpl.
      split; [done | split; [done |]]. split; [done | split; [done | split; [done |]]].
      intros p Hp Hne. left. unfold prop in Hq. rewrite Hp in Hq. simpl in Hq.
      apply limit1_nil in Hq. intros id' u'. by apply where_eq_nil_inv.
    + destruct (str_strict_neq other id) eqn:Hother; [by left |].
      rewrite Hupd. destruct (decide (patch = ∅)); [by left |].
      right. exists u, patch. rewrite doc_get_doc_set. simpl.
      split; [done | split; [done |]]. split; [done | split; [done | split; [done |]]].
      intros p Hp Hne. right. unfold prop in Hq. rewrite Hp in Hq. simpl in Hq.
      apply limit1_where_eq in Hq as [Hd Hphone].
      unfold str_strict_neq in Hother.
      destruct (String.eqb_spec other id) as [-> |]; [| done].
      unfold doc_get in Hu. congruence.
  - rewrite Hupd. destruct (decide (patch = ∅)); [by left |].
    right. exists u, patch. rewrite doc_get_doc_set. simpl.
    split; [done | split; [done |]]. split; [done | split; [done | split; [done |]]].
    intros p Hp Hne. unfold prop in Htruthy. rewrite Hp in Htruthy. simpl in Htruthy.
    by destruct (String.eqb_spec p "").
Qed.

Lemma user_id_not_allowed : "user_id" ∉ allowed.
Proof.
  unfold allowed. rewrite !elem_of_cons, elem_of_nil.
  intros [? | [? | [? | [? | [? | []]]]]]; discriminate.
Qed.

Lemma inv_patch_user id b st :
  service_inv st → service_inv (patch_user id b st).2.
Proof.
  intros Hinv.
  destruct (patch_user_cases id b st)
    as [[-> _] | (u & patch & Hu & -> & Hallowed & _ & Hrole & Hphone)]; [done |].
  simpl. destruct Hinv as (Hwf & Husers & Huniq).
  destruct (counters_doc_set_other USER_COL id (spread u patch) st) as [Hget Hval];
    [done |].
  split; [| split].
  - intros s d. rewrite Hget. apply Hwf.
  - intros id' u'. rewrite Hval. destruct (decide (id' = id)) as [-> | Hne].
    + rewrite doc_get_doc_set. intros [= <-].
      destruct (Husers id u Hu) as (n & -> & Hn & Hid & Hr).
      exists n. split; [done | split; [done | split]].
      * rewrite spread_lookup, Hallowed; [done | apply user_id_not_allowed].
      * rewrite !spread_lookup. destruct (patch !! "role") as [v |] eqn:Hv; [| done].
        destruct (Hrole v eq_refl) as [-> | ->]; [by left | by right].
    + rewrite doc_get_doc_set_ne by done. apply Husers.
  - assert (∀ p, p ≠ "" → spread u patch !! "phone" = Some (JStr p) →
              ∀ i ui, i ≠ id → doc_get USER_COL i st = Some ui →
                      ui !! "phone" ≠ Some (JStr p)) as Hnew.
    { intros p Hp. rewrite spread_lookup.
      destruct (patch !! "phone") as [v |] eqn:Hv.
      - intros [= ->]. intros i ui Hi Hui Hpi.
        destruct (Hphone p eq_refl Hp) as [Hnone | Hself].
        + by destruct (Hnone i ui Hui).
        + by destruct Hi, (Huniq i id ui u p Hp Hui Hu Hpi Hself).
      - intros Hself i ui Hi Hui Hpi.
        by destruct Hi, (Huniq i id ui u p Hp Hui Hu Hpi Hself). }
    intros id1 id2 u1 u2 p Hp H1 H2 Hp1 Hp2.
    destruct (decide (id1 = id)) as [-> | Hne1], (decide (id2 = id)) as [-> | Hne2];
      try done.
    + rewrite doc_get_doc_set in H1. injection H1 as <-.
      rewrite doc_get_doc_set_ne in H2 by done.
      by destruct (Hnew p Hp Hp1 id2 u2).
    + rewrite doc_get_doc_set in H2. injection H2 as <-.
      rewrite doc_get_doc_set_ne in H1 by done.
      by destruct (Hnew p Hp Hp2 id1 u1).
    + rewrite doc_get_doc_set_ne in H1, H2 by done.
      by apply (Huniq id1 id2 u1 u2 p).
Qed.

Lemma doc_get_doc_delete name id id' st :
  doc_get name id' (doc_delete name id st)
  = if decide (id = id') then None else doc_get name id' st.
Proof.
  unfold doc_get, doc_delete, collection_of at 1. rewrite lookup_insert_eq. simpl.
  by rewrite lookup_delete.
Qed.

Lemma inv_delete_user id st :
  service_inv st → service_inv (delete_user id st).2.
Proof.
  intros Hinv. unfold delete_user.
  destruct (doc_get USER_COL id st) as [u |] eqn:Hu; [| done]. simpl.
  destruct Hinv as (Hwf & Husers & Huniq).
  assert (∀ s, doc_get COUNTERS s (doc_delete USER_COL id st) = doc_get COUNTERS s st)
    as Hget.
  { intros s. unfold doc_get. by rewrite collection_of_doc_delete_ne. }
  assert (∀ i ui, doc_get USER_COL i (doc_delete USER_COL id st) = Some ui →
                  doc_get USER_COL i st = Some ui) as Hold.
  { intros i ui. rewrite doc_get_doc_delete. by destruct (decide (id = i)). }
  split; [| split].
  - intros s d. rewrite Hget. apply Hwf.
  - intros i ui Hi%Hold. unfold counter_value. rewrite Hget. by apply Husers.
  - intros id1 id2 u1 u2 p Hp H1%Hold H2%Hold. by apply Huniq.
Qed.

Lemma createAddress_users user_id address lat lng st :
  collection_of USER_COL (createAddress user_id address lat lng st).2
  = collection_of USER_COL st.
Proof.
  unfold createAddress. destruct (_ || _); [done |].
  unfold bind, write, ret. rewrite nextId_run. simpl.
  rewrite collection_of_doc_set_ne by done. apply nextId_users.
Qed.

Lemma createRiderCar_users user_id image_car plate_number car_type st :
  collection_of USER_COL (createRiderCar user_id image_car plate_number car_type st).2
  = collection_of USER_COL st.
Proof.
  unfold createRiderCar. destruct (_ || _); [done |].
  unfold bind, write, ret. rewrite nextId_run. simpl.
  rewrite collection_of_doc_set_ne by done. apply nextId_users.
Qed.

(** Every operation of the service keeps the invariant. *)
Lemma exec_inv o st : service_inv st → service_inv (exec o st).
Proof.
  intros Hinv.
  destruct o as [b | b | id | phone | id b | id | b | | | | sequence]; unfold exec.
  - unfold register_user.
    pose proof (inv_createUser (prop b "name") (prop b "password") (prop b "phone")
                  (prop b "picture") (JNum (NInt 0)) st Hinv) as Hk.
    by destruct (createUser _ _ _ _ _ st) as [[u | e] st'].
  - unfold register_rider, bind at 1.
    pose proof (inv_createUser (prop b "name") (prop b "password") (prop b "phone")
                  (prop b "picture") (JNum (NInt 1)) st Hinv) as Hk.
    destruct (createUser _ _ _ _ _ st) as [[u | e] st1]; [| done]. simpl in Hk.
    unfold bind.
    pose proof (createRiderCar_users (prop u "id") (prop b "image_car")
                  (prop b "plate_number") (prop b "car_type") st1) as Hsame.
    pose proof (keeps_createRiderCar (prop u "id") (prop b "image_car")
                  (prop b "plate_number") (prop b "car_type") st1) as Hgrow.
    destruct (createRiderCar _ _ _ _ st1) as [[c | e] st2]; simpl in *;
      by apply (inv_frame st1 st2).
  - unfold get_user. by destruct (doc_get _ _ _).
  - unfold get_user_by_phone. by destruct (limit 1 _) as [| [i d] l].
  - by apply inv_patch_user.
  - by apply inv_delete_user.
  - unfold login. destruct (_ || _); [done |].
    destruct (limit 1 _) as [| [i u] l]; [done |]. by destruct (str_strict_neq _ _).
  - by apply inv_createUser.
  - apply (inv_frame st); [done | apply createAddress_users | apply keeps_createAddress].
  - apply (inv_frame st); [done | apply createRiderCar_users | apply keeps_createRiderCar].
  - apply (inv_frame st); [done | apply nextId_users | apply keeps_nextId].
Qed.

Lemma reachable_inv st : reachable st → service_inv st.
Proof.
  induction 1 as [| o st _ IH]; [| by apply exec_inv].
  split; [apply counters_wf_empty | split].
  - intros id u Hu. unfold doc_get, collection_of in Hu. by rewrite lookup_empty in Hu.
  - intros id1 id2 u1 u2 p _ Hu. unfold doc_get, collection_of in Hu.
    by rewrite lookup_empty in Hu.
Qed.

(** X1.  Every user the service has stored sits under the decimal rendering of
    its own [user_id], a positive integer that the user sequence has
    issued. *)
Theorem users_keyed_by_user_id (st : db) (id : string) (u : doc) :
  reachable st →
  doc_get USER_COL id st = Some u →
  ∃ n, 1 ≤ n ≤ counter_value "user_seq" st
       ∧ u !! "user_id" = Some (JNum (NInt n))
       ∧ id = ToString (JNum (NInt n))
       ∧ ToNumber (JStr id) = NInt n.
Proof.
  intros (_ & Husers & _)%reachable_inv Hu.
  destruct (Husers id u Hu) as (n & -> & Hn & Hid & _).
  exists n. repeat split; try done; try lia. simpl. apply StringToNumber_decimal.
Qed.

(** X2.  Every user the service has stored has role 0 or 1: [createUser] and
    [PATCH] both normalise the role and reject anything else. *)
Theorem users_role_0_or_1 (st : db) (id : string) (u : doc) :
  reachable st →
  doc_get USER_COL id st = Some u →
  u !! "role" = Some (JNum (NInt 0)) ∨ u !! "role" = Some (JNum (NInt 1)).
Proof.
  intros (_ & Husers & _)%reachable_inv Hu.
  by destruct (Husers id u Hu) as (n & _ & _ & _ & Hrole).
Qed.

(** X3.  As long as requests are served one after the other, no two stored
    users hold the same non-empty phone string: the guard of [createUser]
    and the check of [PATCH] keep them apart. *)
Theorem phones_stay_unique (st : db) (id1 id2 : string) (u1 u2 : doc) (p : string) :
  reachable st →
  p ≠ "" →
  doc_get USER_COL id1 st = Some u1 →
  doc_get USER_COL id2 st = Some u2 →
  u1 !! "phone" = Some (JStr p) →
  u2 !! "phone" = Some (JStr p) →
  id1 = id2.
Proof. intros (_ & _ & Huniq)%reachable_inv. apply Huniq. Qed.


End Users.

(* ===================================================================== *)
(** ** Registration, login and lookup *)
(* ===================================================================== *)

Section Accounts.

Context `{!Runtime}.

(** The keyed [createUser] either leaves the database as it was and throws
    the 400 or the 409 error, or stores one user under the key it was
    given, on a phone nobody held. *)
Lemma AutoKey_createUser_cases key name password phone picture role st :
  (∃ e, AutoKey.createUser key name password phone picture role st = (Throw e, st)
        ∧ (code e = Some 400 ∨ code e = Some 409))
  ∨ (∃ r,
       r = match role with JUndefined => NInt 0 | _ => ToNumber role end
       ∧ truthy name = true ∧ truthy password = true ∧ truthy phone = true
       ∧ AutoKey.includes01 r = true
       ∧ (∀ id u, doc_get "user" id st = Some u →
                  u !! "phone" ≠ Some (JStr (ToString phone)))
       ∧ let data : obj :=
           {[ "name" := JStr (ToString name);
              "password" := JStr (ToString password);
              "phone" := JStr (ToString phone);
              "picture" := if truthy picture then JStr (ToString picture) else JNull;
              "role" := JNum r ]} in
         AutoKey.createUser key name password phone picture role st =
           (Return (spread {[ "id" := JStr key ]} data), doc_set "user" key data st)).
Proof.
  destruct (falsy name || falsy password || falsy phone) eqn:Hchk.
  { left. unfold AutoKey.createUser. rewrite Hchk. eexists. split; [done | by left]. }
  pose proof Hchk as (Hn & Hp & Hph)%falsy_or3.
  set (r := match role with JUndefined => NInt 0 | _ => ToNumber role end).
  destruct (AutoKey.includes01 r) eqn:Hin.
  2:{ left. unfold AutoKey.createUser. rewrite Hchk. fold r. rewrite Hin. simpl.
      eexists. split; [done | by left]. }
  destruct (limit 1 (where_eq "phone" (JStr (ToString phone))
                       (collection_of "user" st))) as [| [i d] l] eqn:Hq.
  - right. exists r. apply limit1_nil in Hq.
    assert (∀ id u, doc_get "user" id st = Some u →
                    u !! "phone" ≠ Some (JStr (ToString phone))) as Hfresh.
    { intros id u. by apply where_eq_nil_inv. }
    repeat split; try done. by apply AutoKey_createUser_run.
  - left. unfold AutoKey.createUser. rewrite Hchk. fold r. rewrite Hin. simpl.
    unfold bind, AutoKey.assertPhoneNotDuplicate, AutoKey.USER_COL. rewrite Hq.
    eexists. split; [done | by right].
Qed.

(** X5.  A creator that throws has written nothing, and throws the error with
    code 400 (a required field is missing, the role is not 0 or 1) or, for
    [createUser] only, 409 (the phone is taken). *)
Theorem creators_fail_clean (st st' : db) (e : js_error) :
  (∀ name password phone picture role,
     IdAlloc.createUser name password phone picture role st = (Throw e, st') →
     st' = st ∧ (code e = Some 400 ∨ code e = Some 409))
  ∧ (∀ user_id address lat lng,
     IdAlloc.createAddress user_id address lat lng st = (Throw e, st') →
     st' = st ∧ code e = Some 400)
  ∧ (∀ user_id image_car plate_number car_type,
     IdAlloc.createRiderCar user_id image_car plate_number car_type st = (Throw e, st') →
     st' = st ∧ code e = Some 400)
  ∧ (∀ key name password phone picture role,
     AutoKey.createUser key name password phone picture role st = (Throw e, st') →
     st' = st ∧ (code e = Some 400 ∨ code e = Some 409))
  ∧ (∀ key user_id address lat lng,
     AutoKey.createAddress key user_id address lat lng st = (Throw e, st') →
     st' = st ∧ code e = Some 400)
  ∧ (∀ key user_id image_car plate_number car_type,
     AutoKey.createRiderCar key user_id image_car plate_number car_type st
     = (Throw e, st') →
     st' = st ∧ code e = Some 400).
Proof.
  split; [| split; [| split; [| split; [| split]]]].
  - intros name password phone picture role Hrun.
    destruct (createUser_cases name password phone picture role st)
      as [(e' & He & Hcode) | (r & _ & _ & _ & _ & _ & Hok)].
    + rewrite He in Hrun. by injection Hrun as <- <-.
    + simpl in Hok. congruence.
  - intros user_id address lat lng. unfold IdAlloc.createAddress.
    destruct (_ || _); [by intros [= <- <-] |].
    unfold bind, write, ret. by rewrite nextId_run.
  - intros user_id image_car plate_number car_type. unfold IdAlloc.createRiderCar.
    destruct (_ || _); [by intros [= <- <-] |].
    unfold bind, write, ret. by rewrite nextId_run.
  - intros key name password phone picture role Hrun.
    destruct (AutoKey_createUser_cases key name password phone picture role st)
      as [(e' & He & Hcode) | (r & _ & _ & _ & _ & _ & _ & Hok)].
    + rewrite He in Hrun. by injection Hrun as <- <-.
    + simpl in Hok. congruence.
  - intros key user_id address lat lng. unfold AutoKey.createAddress.
    by destruct (_ || _); [intros [= <- <-] |].
  - intros key user_id image_car plate_number car_type. unfold AutoKey.createRiderCar.
    by destruct (_ || _); [intros [= <- <-] |].
Qed.

(** After a document holding a value nobody held is stored, a query for
    the value returns that document alone. *)
Lemma where_eq_after_insert f v (c : collection) id (d : doc) :
  d !! f = Some v →
  (∀ id' d', c !! id' = Some d' → d' !! f ≠ Some v) →
  where_eq f v (<[id := d]> c) = [(id, d)].
Proof.
  intros Hd Hfresh. apply where_eq_unique; [apply lookup_insert_eq | done |].
  intros id' d' Hc' Hd'. destruct (decide (id' = id)) as [-> | Hne]; [done |].
  rewrite lookup_insert_ne in Hc' by done. by destruct (Hfresh id' d' Hc').
Qed.

Lemma code_or_400 e : code e = Some 400 → code_or e 400 = 400.
Proof. unfold code_or. by intros ->. Qed.

Lemma code_or_409 e : code e = Some 409 → code_or e 400 = 409.
Proof. unfold code_or. by intros ->. Qed.

(** A registration answered 201 has run [createUser] to its end. *)
Lemma register_user_201 (b : obj) st :
  status (IdAlloc.register_user b st).1 = 201 →
  ∃ u st',
    IdAlloc.createUser (prop b "name") (prop b "password") (prop b "phone")
      (prop b "picture") (JNum (NInt 0)) st = (Return u, st')
    ∧ IdAlloc.register_user b st
      = ({| status := 201; body := {[ "user" := FObj u ]} |}, st').
Proof.
  unfold IdAlloc.register_user.
  destruct (createUser_cases (prop b "name") (prop b "password") (prop b "phone")
              (prop b "picture") (JNum (NInt 0)) st)
    as [(e & -> & Hcode) | (r & _ & _ & _ & _ & _ & Hok)].
  - simpl. destruct Hcode as [Hc | Hc];
      [rewrite (code_or_400 e Hc) | rewrite (code_or_409 e Hc)]; done.
  - simpl in Hok. rewrite Hok. intros _. by do 2 eexists.
Qed.

Lemma AutoKey_register_user_201 key (b : obj) st :
  status (AutoKey.register_user key b st).1 = 201 →
  ∃ u st',
    AutoKey.createUser key (prop b "name") (prop b "password") (prop b "phone")
      (prop b "picture") (JNum (NInt 0)) st = (Return u, st')
    ∧ AutoKey.register_user key b st
      = ({| status := 201; body := {[ "user" := FObj u ]} |}, st').
Proof.
  unfold AutoKey.register_user.
  destruct (AutoKey_createUser_cases key (prop b "name") (prop b "password")
              (prop b "phone") (prop b "picture") (JNum (NInt 0)) st)
    as [(e & -> & Hcode) | (r & _ & _ & _ & _ & _ & _ & Hok)].
  - simpl. destruct Hcode as [Hc | Hc];
      [rewrite (code_or_400 e Hc) | rewrite (code_or_409 e Hc)]; done.
  - simpl in Hok. rewrite Hok. intros _. by do 2 eexists.
Qed.

(** X6.  Whoever has just registered can log in: after a registration answered
    201, a login with the same phone and password is answered 200 with the
    id, name, phone and role of the new user, in both revisions. *)
Theorem register_then_login (b lb : obj) (st : db) :
  prop lb "phone" = prop b "phone" →
  prop lb "password" = prop b "password" →
  (status (IdAlloc.register_user b st).1 = 201 →
     ∃ id,
       body (IdAlloc.register_user b st).1 !! "user"
       = Some (FObj (spread {[ "id" := JStr id ]}
                       (default ∅ (doc_get "user" id (IdAlloc.register_user b st).2))))
       ∧ IdAlloc.login lb (IdAlloc.register_user b st).2 =
         ({| status := 200;
             body := flat {[ "id" := JStr id;
                             "name" := JStr (ToString (prop b "name"));
                             "phone" := JStr (ToString (prop b "phone"));
                             "role" := JNum (NInt 0) ]} |},
          (IdAlloc.register_user b st).2))
  ∧ (∀ key,
     status (AutoKey.register_user key b st).1 = 201 →
     AutoKey.login lb (AutoKey.register_user key b st).2 =
       ({| status := 200;
           body := flat {[ "id" := JStr key;
                           "name" := JStr (ToString (prop b "name"));
                           "phone" := JStr (ToString (prop b "phone"));
                           "role" := JNum (NInt 0) ]} |},
        (AutoKey.register_user key b st).2)).
Proof.
  intros Hphone Hpassword. split.
  - intros (u & st' & Hrun & ->)%register_user_201. simpl.
    destruct (createUser_cases (prop b "name") (prop b "password") (prop b "phone")
                (prop b "picture") (JNum (NInt 0)) st)
      as [(e & He & _) | (r & Hn & Hp & Hph & Hrole & Hfresh & Hok)]; [congruence |].
    simpl in Hok. rewrite Hok in Hrun. injection Hrun as <- <-.
    injection Hrole as <-.
    match goal with |- context [doc_set _ ?i ?d _] => set (id := i); set (data := d) end.
    exists id. rewrite doc_get_doc_set. simpl. split; [by rewrite lookup_singleton_eq |].
    unfold IdAlloc.login. rewrite Hphone, Hpassword.
    replace (falsy (prop b "phone") || falsy (prop b "password")) with false
      by (symmetry; by apply falsy_or2).
    unfold IdAlloc.USER_COL. rewrite collection_of_doc_set.
    rewrite (where_eq_after_insert "phone" (JStr (ToString (prop b "phone"))) _ id data);
      [| by vm_compute |].
    + simpl.
      replace (prop data "password") with (JStr (ToString (prop b "password")))
        by (by vm_compute).
      unfold str_strict_neq. simpl. rewrite String.eqb_refl. simpl.
      by replace (prop data "name") with (JStr (ToString (prop b "name")))
        by (by vm_compute).
    + intros id' d' Hd'. apply (Hfresh id' d'). unfold doc_get, IdAlloc.USER_COL.
      by rewrite (nextId_other_collection "user_seq" "user" st) in Hd'.
  - intros key (u & st' & Hrun & ->)%AutoKey_register_user_201. simpl.
    destruct (AutoKey_createUser_cases key (prop b "name") (prop b "password")
                (prop b "phone") (prop b "picture") (JNum (NInt 0)) st)
      as [(e & He & _) | (r & Hr & Hn & Hp & Hph & Hrole & Hfresh & Hok)];
      [congruence |].
    simpl in Hok, Hr. subst r. rewrite Hok in Hrun. injection Hrun as <- <-.
    match goal with |- context [doc_set _ _ ?d _] => set (data := d) end.
    unfold AutoKey.login. rewrite Hphone, Hpassword.
    replace (falsy (prop b "phone") || falsy (prop b "password")) with false
      by (symmetry; by apply falsy_or2).
    unfold AutoKey.USER_COL. rewrite collection_of_doc_set.
    rewrite (where_eq_after_insert "phone" (JStr (ToString (prop b "phone"))) _ key data);
      [| by vm_compute | done].
    simpl.
    replace (prop data "password") with (JStr (ToString (prop b "password")))
      by (by vm_compute).
    unfold str_strict_neq. simpl. rewrite String.eqb_refl. simpl.
    done.
Qed.

(** X7.  Login is sound: it never writes, it answers 200, 400 or 401, and it
    answers 200 only when some stored user holds the submitted phone and a
    password that renders as the submitted one; the [id] of the answer is
    that user's.  Both revisions. *)
Theorem login_sound (b : obj) (st : db) :
  (IdAlloc.login b st).2 = st
  ∧ (AutoKey.login b st).2 = st
  ∧ status (IdAlloc.login b st).1 = status (AutoKey.login b st).1
  ∧ (status (AutoKey.login b st).1 = 200
     ∨ status (AutoKey.login b st).1 = 400
     ∨ status (AutoKey.login b st).1 = 401)
  ∧ (status (AutoKey.login b st).1 = 200 →
     ∃ id u,
       doc_get "user" id st = Some u
       ∧ u !! "phone" = Some (JStr (ToString (prop b "phone")))
       ∧ ToString (prop u "password") = ToString (prop b "password")
       ∧ body (IdAlloc.login b st).1 !! "id" = Some (FVal (JStr id))
       ∧ body (AutoKey.login b st).1 !! "id" = Some (FVal (JStr id))).
Proof.
  unfold IdAlloc.login, AutoKey.login, IdAlloc.USER_COL, AutoKey.USER_COL.
  destruct (falsy (prop b "phone") || falsy (prop b "password"));
    [simpl; repeat split; auto; done |].
  destruct (limit 1 _) as [| [id u] l] eqn:Hq;
    [simpl; repeat split; auto; done |].
  apply limit1_where_eq in Hq as [Hu Hphone].
  unfold str_strict_neq.
  destruct (String.eqb_spec (ToString (prop u "password")) (ToString (prop b "password")))
    as [Hpw | Hpw]; simpl; [| repeat split; auto; done].
  repeat split; auto. intros _. exists id, u.
  repeat split; try done; by vm_compute.
Qed.

(** X8.  What registration stores can be read back: after a registration
    answered 201, [GET /users/:id] with the id of the answer and
    [GET /users/by-phone/:phone] with the registered phone both answer 200
    with the very record the registration returned, password included. *)
Theorem register_then_get (b : obj) (st : db) :
  status (IdAlloc.register_user b st).1 = 201 →
  ∃ id u st',
    IdAlloc.register_user b st
    = ({| status := 201; body := {[ "user" := FObj u ]} |}, st')
    ∧ u !! "id" = Some (JStr id)
    ∧ u !! "password" = Some (JStr (ToString (prop b "password")))
    ∧ IdAlloc.get_user id st' = ({| status := 200; body := flat u |}, st')
    ∧ IdAlloc.get_user_by_phone (ToString (prop b "phone")) st'
      = ({| status := 200; body := flat u |}, st').
Proof.
  intros (u & st' & Hrun & ->)%register_user_201.
  destruct (createUser_cases (prop b "name") (prop b "password") (prop b "phone")
              (prop b "picture") (JNum (NInt 0)) st)
    as [(e & He & _) | (r & Hn & Hp & Hph & Hrole & Hfresh & Hok)]; [congruence |].
  simpl in Hok. rewrite Hok in Hrun. injection Hrun as <- <-.
  match goal with |- context [doc_set _ ?i ?d _] => set (id := i); set (data := d) end.
  exists id, (spread {[ "id" := JStr id ]} data), (doc_set IdAlloc.USER_COL id data
    (IdAlloc.nextId "user_seq" st).2).
  split; [done |].
  split; [rewrite spread_lookup_l by (by vm_compute); by rewrite lookup_singleton_eq |].
  split; [apply spread_lookup_r; by vm_compute |].
  split.
  - unfold IdAlloc.get_user. by rewrite doc_get_doc_set.
  - unfold IdAlloc.get_user_by_phone. rewrite collection_of_doc_set.
    rewrite (where_eq_after_insert "phone" (JStr (ToString (prop b "phone"))) _ id data);
      [done | by vm_compute |].
    intros id' d' Hd'. apply (Hfresh id' d'). unfold doc_get, IdAlloc.USER_COL.
    by rewrite (nextId_other_collection "user_seq" "user" st) in Hd'.
Qed.

(** X9.  How a registration is answered, in both revisions: 400 when [name],
    [password] or [phone] is missing, 409 when the fields are there and
    some user holds the phone, 201 when the fields are there and nobody
    does; only the 201 writes. *)
Theorem register_user_decision (b : obj) (st : db) :
  (truthy (prop b "name") = false ∨ truthy (prop b "password") = false
   ∨ truthy (prop b "phone") = false →
     IdAlloc.register_user b st
     = ({| status := 400; body := error_body "name, password, phone are required" |}, st)
     ∧ ∀ key, AutoKey.register_user key b st
       = ({| status := 400;
             body := error_body "name, password, phone are required" |}, st))
  ∧ (truthy (prop b "name") = true → truthy (prop b "password") = true →
     truthy (prop b "phone") = true →
     (∃ id u, doc_get "user" id st = Some u
              ∧ u !! "phone" = Some (JStr (ToString (prop b "phone")))) →
     status (IdAlloc.register_user b st).1 = 409
     ∧ (IdAlloc.register_user b st).2 = st
     ∧ ∀ key, status (AutoKey.register_user key b st).1 = 409
              ∧ (AutoKey.register_user key b st).2 = st)
  ∧ (truthy (prop b "name") = true → truthy (prop b "password") = true →
     truthy (prop b "phone") = true →
     (∀ id u, doc_get "user" id st = Some u →
              u !! "phone" ≠ Some (JStr (ToString (prop b "phone")))) →
     status (IdAlloc.register_user b st).1 = 201
     ∧ (IdAlloc.register_user b st).2 ≠ st
     ∧ ∀ key, status (AutoKey.register_user key b st).1 = 201
              ∧ doc_get "user" key (AutoKey.register_user key b st).2
                = Some {[ "name" := JStr (ToString (prop b "name"));
                          "password" := JStr (ToString (prop b "password"));
                          "phone" := JStr (ToString (prop b "phone"));
                          "picture" := if truthy (prop b "picture")
                                       then JStr (ToString (prop b "picture"))
                                       else JNull;
                          "role" := JNum (NInt 0) ]}).
Proof.
  split; [| split].
  - intros Hfalsy.
    assert (falsy (prop b "name") || falsy (prop b "password")
            || falsy (prop b "phone") = true) as Hchk.
    { unfold falsy. destruct Hfalsy as [-> | [-> | ->]]; simpl; by rewrite ?orb_true_r. }
    split; [| intros key].
    + unfold IdAlloc.register_user, IdAlloc.createUser. rewrite Hchk. unfold throw.
      by rewrite catch_register_plain.
    + unfold AutoKey.register_user, AutoKey.createUser. rewrite Hchk. unfold throw.
      by rewrite catch_with_payload_plain.
  - intros Hn Hp Hph (id & u & Hu & Hphone).
    destruct (createUser_conflict (prop b "name") (prop b "password") (prop b "phone")
                (prop b "picture") (JNum (NInt 0)) (NInt 0) st id u
                Hn Hp Hph eq_refl eq_refl Hu Hphone) as [HA (e & HB & Hcode & _)].
    split; [| split; [| intros key]].
    + unfold IdAlloc.register_user. rewrite HB. simpl. by apply code_or_409.
    + unfold IdAlloc.register_user. by rewrite HB.
    + destruct (HA key) as (e' & Hrun & Hcode' & _).
      unfold AutoKey.register_user. rewrite Hrun. simpl. split; [| done].
      by apply code_or_409.
  - intros Hn Hp Hph Hfresh.
    pose proof (createUser_run (prop b "name") (prop b "password") (prop b "phone")
                  (prop b "picture") (JNum (NInt 0)) (NInt 0) st
                  Hn Hp Hph eq_refl Hfresh) as Hrun.
    simpl in Hrun.
    split; [| split; [| intros key]].
    + unfold IdAlloc.register_user. by rewrite Hrun.
    + unfold IdAlloc.register_user. rewrite Hrun. simpl. intros Heq.
      match type of Heq with doc_set _ ?i ?d ?x = _ =>
        pose proof (doc_get_doc_set IdAlloc.USER_COL i d x) as Hget end.
      rewrite Heq in Hget. apply (Hfresh _ _ Hget). by vm_compute.
    + pose proof (AutoKey_createUser_run key (prop b "name") (prop b "password")
                    (prop b "phone") (prop b "picture") (JNum (NInt 0)) (NInt 0) st
                    Hn Hp Hph eq_refl eq_refl Hfresh) as Hrun'.
      simpl in Hrun'. unfold AutoKey.register_user. rewrite Hrun'. simpl.
      split; [done |]. apply doc_get_doc_set.
Qed.

End Accounts.

(* ===================================================================== *)
(** ** Changing and removing users *)
(* ===================================================================== *)

Section Maintenance.

Context `{!Runtime}.


(** X11.  [PATCH /users/:id] touches one document only, and in it only the
    properties [name], [password], [phone], [picture] and [role]: every
    other property of the user (its [user_id]), every other user and every
    other collection are as before.  When it answers 200, each allowed
    property of the body other than [role] is stored as sent and comes back
    in the answer; when it does not, nothing is written. *)
Theorem patch_user_effect (id : string) (b : obj) (st : db) :
  (∀ name, name ≠ "user" →
     collection_of name (IdAlloc.patch_user id b st).2 = collection_of name st)
  ∧ (∀ id', id' ≠ id →
     doc_get "user" id' (IdAlloc.patch_user id b st).2 = doc_get "user" id' st)
  ∧ (∀ k, k ∉ IdAlloc.allowed →
     doc_get "user" id (IdAlloc.patch_user id b st).2 ≫= (.!! k)
     = doc_get "user" id st ≫= (.!! k))
  ∧ (status (IdAlloc.patch_user id b st).1 = 200 →
     ∀ k v, k ∈ IdAlloc.allowed → k ≠ "role" → b !! k = Some v →
       doc_get "user" id (IdAlloc.patch_user id b st).2 ≫= (.!! k) = Some v
       ∧ body (IdAlloc.patch_user id b st).1 !! k = Some (FVal v))
  ∧ (status (IdAlloc.patch_user id b st).1 ≠ 200 →
     (IdAlloc.patch_user id b st).2 = st).
Proof.
  destruct (patch_user_cases id b st)
    as [[Hsame Hstatus] | (u & patch & Hu & Hrun & Hallowed & Hpick & _)].
  - rewrite Hsame. repeat split; done.
  - rewrite Hrun. simpl. unfold IdAlloc.USER_COL in *.
    split; [| split; [| split; [| split]]].
    + intros name Hne. by rewrite collection_of_doc_set_ne.
    + intros id' Hne. by rewrite doc_get_doc_set_ne.
    + intros k Hk. rewrite doc_get_doc_set, Hu. simpl.
      by rewrite spread_lookup, Hallowed.
    + intros _ k v Hk Hrole Hb.
      assert (patch !! k = Some v) as Hpatch.
      { rewrite Hpick by done. rewrite pick_allowed_lookup. by rewrite decide_True. }
      rewrite doc_get_doc_set. simpl. split.
      * by rewrite spread_lookup, Hpatch.
      * unfold flat. rewrite lookup_fmap, !spread_lookup, Hpatch. done.
    + done.
Qed.

(** X12.  [PATCH /users/:id] will not give a user the phone of another: when a
    different user holds the non-empty phone string of the body, the answer
    is 409 and nothing is written. *)
Theorem patch_user_phone_taken (id id2 : string) (b : obj) (st : db)
    (u u2 : doc) (p : string) :
  IdAlloc.reachable st →
  p ≠ "" → id2 ≠ id →
  doc_get "user" id st = Some u →
  doc_get "user" id2 st = Some u2 →
  u2 !! "phone" = Some (JStr p) →
  b !! "phone" = Some (JStr p) →
  (∀ role, b !! "role" = Some role → ∃ r, IdAlloc.normalizeRoleInt role = Return r) →
  IdAlloc.patch_user id b st
  = ({| status := 409; body := error_body "phone already exists" |}, st).
Proof.
  intros (_ & _ & Huniq)%reachable_inv Hp Hne Hu Hu2 Hphone2 Hb Hrole.
  unfold IdAlloc.patch_user, IdAlloc.USER_COL. rewrite Hu.
  assert ("phone" ∈ IdAlloc.allowed) as Hin1 by (unfold IdAlloc.allowed; repeat constructor).
  assert ("role" ∈ IdAlloc.allowed) as Hin2 by (unfold IdAlloc.allowed; repeat constructor).
  assert (∀ patch : obj, patch !! "phone" = Some (JStr p) →
    (if truthy (prop patch "phone")
     then limit 1 (where_eq "phone" (JStr (ToString (prop patch "phone")))
                     (collection_of "user" st))
     else []) = limit 1 (where_eq "phone" (JStr p) (collection_of "user" st))) as Hdup.
  { intros patch Hpatch. unfold prop. rewrite Hpatch. simpl.
    by destruct (String.eqb_spec p ""). }
  destruct (where_eq_cons "phone" (JStr p) (collection_of "user" st) id2 u2 Hu2 Hphone2)
    as (o & uo & l & Hq & Huo & Hpo).
  assert (o = id2) as -> by (by apply (Huniq o id2 uo u2 p)).
  assert (str_strict_neq id2 id = true) as Hother.
  { unfold str_strict_neq. by destruct (String.eqb_spec id2 id). }
  assert (IdAlloc.pick_allowed b !! "phone" = Some (JStr p)) as Hpick.
  { rewrite pick_allowed_lookup. by rewrite decide_True. }
  rewrite pick_allowed_lookup, decide_True by done.
  destruct (b !! "role") as [role |] eqn:Hr.
  - destruct (Hrole role eq_refl) as [r ->]. cbv zeta.
    rewrite Hdup by (by rewrite lookup_insert_ne). rewrite Hq. simpl.
    by rewrite Hother.
  - cbv zeta. rewrite Hdup by done. rewrite Hq. simpl. by rewrite Hother.
Qed.

(** X13.  The revisions differ on the role of a [PATCH]: the first revision (and
    the keyed one, whose route is the same) stores [Number(role)] whatever
    it is, while the counter revision answers 400 and writes nothing unless
    it is 0 or 1. *)
Theorem patch_role_check_differs (id : string) (b : obj) (st : db) (u : doc)
    (v : jsval) :
  doc_get "user" id st = Some u →
  b !! "role" = Some v →
  b !! "phone" = None →
  (status (Inline.patch_user id b st).1 = 200
   ∧ doc_get "user" id (Inline.patch_user id b st).2 ≫= (.!! "role")
     = Some (JNum (ToNumber v)))
  ∧ (ToNumber (js_coalesce v (JNum (NInt 0))) ≠ NInt 0 →
     ToNumber (js_coalesce v (JNum (NInt 0))) ≠ NInt 1 →
     IdAlloc.patch_user id b st
     = ({| status := 400; body := error_body "role must be 0 or 1" |}, st)).
Proof.
  intros Hu Hrole Hphone.
  assert ("phone" ∈ IdAlloc.allowed) as Hin1 by (unfold IdAlloc.allowed; repeat constructor).
  assert ("role" ∈ IdAlloc.allowed) as Hin2 by (unfold IdAlloc.allowed; repeat constructor).
  assert (IdAlloc.pick_allowed b !! "role" = Some v) as Hpr.
  { rewrite pick_allowed_lookup. by rewrite decide_True. }
  assert (IdAlloc.pick_allowed b !! "phone" = None) as Hpp.
  { rewrite pick_allowed_lookup. by rewrite decide_True. }
  split.
  - unfold Inline.patch_user, Inline.COL. rewrite Hu, Hpr. cbv zeta.
    set (patch := <["role" := JNum (ToNumber v)]> (IdAlloc.pick_allowed b)).
    assert (prop patch "phone" = JUndefined) as ->.
    { unfold prop, patch. by rewrite lookup_insert_ne, Hpp. }
    simpl. unfold doc_update. rewrite Hu.
    destruct (decide (patch = ∅)) as [Hempty | _].
    { assert (patch !! "role" = None) as Habs by (by rewrite Hempty).
      unfold patch in Habs. by rewrite lookup_insert_eq in Habs. }
    simpl. split; [done |]. rewrite doc_get_doc_set. simpl.
    rewrite spread_lookup. unfold patch. by rewrite lookup_insert_eq.
  - intros H0 H1. unfold IdAlloc.patch_user, IdAlloc.USER_COL. rewrite Hu, Hpr.
    by rewrite normalizeRoleInt_reject.
Qed.

End Maintenance.

(* ===================================================================== *)
(** ** Addresses, vehicles and the first revision's users *)
(* ===================================================================== *)

Section Records.

Context `{!Runtime}.

(** X14.  A [POST /users] on a phone that is taken, with valid fields, is
    answered 409 and writes nothing in both revisions that have the route.
    The first revision answers with the error message alone; the keyed
    revision adds [id], [phone] and [name] of a user holding the phone, and
    nothing else of that record. *)
Theorem duplicate_phone_answers (key : string) (b : obj) (st : db)
    (id : string) (u : doc) :
  truthy (prop b "name") = true →
  truthy (prop b "password") = true →
  truthy (prop b "phone") = true →
  AutoKey.includes01 (match prop b "role" with
                      | JUndefined => NInt 0
                      | _ => ToNumber (prop b "role")
                      end) = true →
  doc_get "user" id st = Some u →
  u !! "phone" = Some (JStr (ToString (prop b "phone"))) →
  Inline.post_users key b st
  = ({| status := 409; body := error_body "phone already exists" |}, st)
  ∧ ∃ id' u',
      doc_get "user" id' st = Some u'
      ∧ u' !! "phone" = Some (JStr (ToString (prop b "phone")))
      ∧ AutoKey.post_users key b st
        = ({| status := 409;
              body := flat {[ "error" := JStr "phone already exists";
                              "id" := JStr id';
                              "phone" := prop u' "phone";
                              "name" := prop u' "name" ]} |}, st).
Proof.
  intros Hn Hp Hph Hrole Hu Hphone.
  assert (falsy (prop b "name") || falsy (prop b "password")
          || falsy (prop b "phone") = false) as Hchk by (by apply falsy_or3).
  destruct (where_eq_cons "phone" (JStr (ToString (prop b "phone")))
              (collection_of "user" st) id u Hu Hphone)
    as (id' & u' & l & Hq & Hu' & Hphone').
  split.
  - unfold Inline.post_users, Inline.COL. rewrite Hchk. cbv zeta. rewrite Hrole.
    simpl. by rewrite Hq.
  - exists id', u'. split; [done | split; [done |]].
    unfold AutoKey.post_users, AutoKey.createUser. rewrite Hchk. cbv zeta.
    rewrite Hrole. simpl.
    unfold bind, AutoKey.assertPhoneNotDuplicate, AutoKey.USER_COL. rewrite Hq. simpl.
    unfold AutoKey.catch_with_payload, code_or, payload_or_empty. simpl.
    assert (spread {[ "error" := JStr "phone already exists" ]}
              {[ "id" := JStr id'; "phone" := prop u' "phone"; "name" := prop u' "name" ]}
            = ({[ "error" := JStr "phone already exists";
                  "id" := JStr id';
                  "phone" := prop u' "phone";
                  "name" := prop u' "name" ]} : obj)) as ->; [| done].
    apply map_eq. intros k. rewrite spread_lookup.
    destruct (decide (k = "id")) as [-> | ?]; [done |].
    destruct (decide (k = "phone")) as [-> | ?]; [done |].
    destruct (decide (k = "name")) as [-> | ?]; [done |].
    destruct (decide (k = "error")) as [-> | ?]; [done |].
    by rewrite !lookup_insert_ne, ?lookup_singleton_ne, ?lookup_empty by done.
Qed.

(** X15.  [POST /users/:id/addresses] for a user that exists: without an
    [address] the answer is 400 and nothing is written; with one the answer
    is 201 and one address is stored under the new key, its [user_id] being
    the key of that user as a string. *)
Theorem post_user_addresses_spec (key id : string) (b : obj) (st : db) :
  id ≠ "" →
  is_Some (doc_get "user" id st) →
  (truthy (prop b "address") = false →
     AutoKey.post_user_addresses key id b st
     = ({| status := 400; body := error_body "user_id and address are required" |}, st))
  ∧ (truthy (prop b "address") = true →
     ∃ stored,
       AutoKey.post_user_addresses key id b st
       = ({| status := 201;
             body := {[ "address" := FObj (spread {[ "id" := JStr key ]} stored) ]} |},
          doc_set "user_address" key stored st)
       ∧ stored !! "user_id" = Some (JStr id)
       ∧ stored !! "address" = Some (JStr (ToString (prop b "address")))
       ∧ is_Some (doc_get "user" id (doc_set "user_address" key stored st))).
Proof.
  intros Hid [u Hu]. unfold AutoKey.post_user_addresses, AutoKey.USER_COL.
  rewrite Hu. cbv zeta. unfold AutoKey.createAddress.
  assert (truthy (JStr id) = true) as Htid by (by apply truthy_JStr).
  split.
  - intros Ha. unfold falsy. rewrite Htid, Ha. simpl. unfold throw. by simpl.
  - intros Ha. unfold falsy. rewrite Htid, Ha. simpl.
    unfold bind, AutoKey.add_then_get, bind, write, read, ret, AutoKey.ADDR_COL.
    rewrite doc_get_doc_set. simpl. eexists. split; [reflexivity |].
    split; [by vm_compute | split; [by vm_compute |]].
    unfold doc_get in Hu |- *. rewrite collection_of_doc_set_ne by done.
    by eexists.
Qed.

(** X16.  [GET /addresses] counts what it lists, lists one item per stored
    address when no [user_id] is asked for, and with a [user_id] lists
    exactly the stored addresses whose [user_id] is that string, each under
    its key as [address_id]. *)
Theorem get_addresses_filter (uid : jsval) (st : db) :
  Inline.count (Inline.get_addresses uid st)
  = length (Inline.items (Inline.get_addresses uid st))
  ∧ (truthy uid = false →
     Inline.count (Inline.get_addresses uid st) = size (collection_of "user_address" st))
  ∧ (truthy uid = true →
     ∀ a, a ∈ Inline.items (Inline.get_addresses uid st) ↔
          ∃ key d, doc_get "user_address" key st = Some d
                   ∧ d !! "user_id" = Some (JStr (ToString uid))
                   ∧ a = spread {[ "address_id" := JStr key ]} d).
Proof.
  unfold Inline.get_addresses, Inline.ADDR_COL. split; [| split].
  - simpl. by rewrite length_fmap.
  - intros ->. simpl. by rewrite length_map_to_list.
  - intros ->. simpl. intros a. rewrite list_elem_of_fmap. split.
    + intros ([key d] & -> & [Hd Hu]%elem_of_where_eq). by exists key, d.
    + intros (key & d & Hd & Hu & ->). exists (key, d). split; [done |].
      by apply elem_of_where_eq.
Qed.

(** X17.  An address stored through [POST /addresses] is listed for its user:
    after an answer 201, [GET /addresses?user_id=...] with the same user id
    lists the new address with its key, user id and text, and the user it
    refers to is stored. *)
Theorem post_then_get_addresses (key : string) (b : obj) (st : db) :
  status (Inline.post_addresses key b st).1 = 201 →
  is_Some (doc_get "user" (ToString (prop b "user_id")) st)
  ∧ ∃ a,
      a ∈ Inline.items (Inline.get_addresses (JStr (ToString (prop b "user_id")))
                          (Inline.post_addresses key b st).2)
      ∧ a !! "address_id" = Some (JStr key)
      ∧ a !! "user_id" = Some (JStr (ToString (prop b "user_id")))
      ∧ a !! "address" = Some (JStr (ToString (prop b "address"))).
Proof.
  unfold Inline.post_addresses, Inline.COL, Inline.ADDR_COL.
  destruct (falsy (prop b "user_id") || falsy (prop b "address")); [done |].
  destruct (doc_get "user" (ToString (prop b "user_id")) st) as [u |] eqn:Hu; [| done].
  cbv zeta. simpl. intros _. split; [by eexists |].
  match goal with |- context [doc_set _ _ ?d _] => set (data := d) end.
  exists (spread {[ "address_id" := JStr key ]} data).
  assert (data !! "user_id" = Some (JStr (ToString (prop b "user_id")))) as Huid
    by (by vm_compute).
  split; [| split; [| split]].
  - unfold Inline.get_addresses, Inline.ADDR_COL. simpl.
    apply list_elem_of_fmap. exists (key, data). split; [done |].
    destruct (negb _).
    + apply elem_of_where_eq. by rewrite collection_of_doc_set, lookup_insert_eq.
    + apply elem_of_map_to_list. by rewrite collection_of_doc_set, lookup_insert_eq.
  - rewrite spread_lookup_l by (by vm_compute). by rewrite lookup_singleton_eq.
  - by apply spread_lookup_r.
  - apply spread_lookup_r. by vm_compute.
Qed.

Lemma counters_wf_doc_set_other name id d st :
  name ≠ IdAlloc.COUNTERS →
  IdAlloc.counters_wf st → IdAlloc.counters_wf (doc_set name id d st).
Proof.
  intros Hne Hwf s d'. destruct (counters_doc_set_other name id d st Hne) as [Hget _].
  rewrite Hget. apply Hwf.
Qed.

(** X18.  A complete rider registration, served in a reachable database, is
    answered 201 and leaves two records that refer to each other by
    number: the user, with role 1, under the rendering of its [user_id],
    and the vehicle, whose [user_id] is that same number. *)
Theorem register_rider_links_records (b : obj) (st : db) :
  IdAlloc.reachable st →
  truthy (prop b "name") = true →
  truthy (prop b "password") = true →
  truthy (prop b "phone") = true →
  (∀ id u, doc_get "user" id st = Some u →
           u !! "phone" ≠ Some (JStr (ToString (prop b "phone")))) →
  truthy (prop b "plate_number") = true →
  truthy (prop b "car_type") = true →
  ∃ n m user car st',
    IdAlloc.register_rider b st
    = ({| status := 201;
          body := {[ "user" := FObj user; "rider_car" := FObj car ]} |}, st')
    ∧ user !! "id" = Some (JStr (ToString (JNum (NInt n))))
    ∧ car !! "user_id" = Some (JNum (NInt n))
    ∧ (∃ urec, doc_get "user" (ToString (JNum (NInt n))) st' = Some urec
               ∧ urec !! "user_id" = Some (JNum (NInt n))
               ∧ urec !! "role" = Some (JNum (NInt 1)))
    ∧ (∃ crec, doc_get "rider_car" (ToString (JNum (NInt m))) st' = Some crec
               ∧ crec !! "rider_id" = Some (JNum (NInt m))
               ∧ crec !! "user_id" = Some (JNum (NInt n))
               ∧ crec !! "plate_number"
                 = Some (JStr (ToString (prop b "plate_number")))).
Proof.
  intros Hreach Hn Hp Hph Hfresh Hplate Hcar.
  pose proof (reachable_wf st Hreach) as Hwf.
  pose proof (createUser_run (prop b "name") (prop b "password") (prop b "phone")
                (prop b "picture") (JNum (NInt 1)) (NInt 1) st
                Hn Hp Hph eq_refl Hfresh) as Hrun.
  simpl in Hrun.
  destruct (current_of_wf "user_seq" st Hwf) as [Hcur _].
  rewrite Hcur in Hrun. simpl in Hrun.
  set (n := IdAlloc.counter_value "user_seq" st + 1) in *.
  set (id := NilZero.string_of_int (Z.to_int n)) in *.
  match type of Hrun with _ = (_, doc_set _ _ ?d ?x) =>
    set (data := d) in *; set (s1 := x) in * end.
  set (st1 := doc_set IdAlloc.USER_COL id data s1) in *.
  assert (IdAlloc.counters_wf st1) as Hwf1.
  { apply counters_wf_doc_set_other; [done |].
    destruct (nextId_wf "user_seq" st Hwf) as (x & Hx & Hwfx & _).
    subst s1. by rewrite Hx. }
  assert (prop (spread {[ "id" := JStr id ]} data) "id" = JStr id) as Hpid.
  { unfold prop. rewrite spread_lookup_l by (by vm_compute).
    by rewrite lookup_singleton_eq. }
  assert (truthy (JStr id) = true) as Htid.
  { apply truthy_JStr. apply (NumberToString_nonempty n). }
  pose proof (createRiderCar_run (JStr id) (prop b "image_car") (prop b "plate_number")
                (prop b "car_type") st1 Htid Hplate Hcar) as Hcar_run.
  simpl in Hcar_run.
  destruct (current_of_wf "rider_seq" st1 Hwf1) as [Hcur1 _].
  rewrite Hcur1 in Hcar_run. simpl in Hcar_run.
  set (m := IdAlloc.counter_value "rider_seq" st1 + 1) in *.
  assert (StringToNumber id = NInt n) as Hnum by apply StringToNumber_decimal.
  rewrite Hnum in Hcar_run. simpl in Hcar_run.
  unfold IdAlloc.register_rider, bind at 1. rewrite Hrun.
  unfold bind. rewrite Hpid, Hcar_run. unfold ret.
  do 5 eexists. split; [reflexivity |].
  split; [| split; [| split]].
  - rewrite spread_lookup_l by (by vm_compute). by rewrite lookup_singleton_eq.
  - apply spread_lookup_r. by vm_compute.
  - exists data. split; [| split; by vm_compute].
    unfold doc_get. rewrite collection_of_doc_set_ne by done.
    rewrite (nextId_other_collection "rider_seq" "user" st1) by done.
    subst st1. by rewrite collection_of_doc_set, lookup_insert_eq.
  - eexists. split; [apply doc_get_doc_set |]. repeat split; by vm_compute.
Qed.

(** X19.  The keyed revision links them by key: a complete rider registration
    is answered 201 and stores the user, with role 1, under the key the
    store picked, and a vehicle whose [user_id] is that key. *)
Theorem keyed_register_rider_links_records (ukey ckey : string) (b : obj) (st : db) :
  ukey ≠ "" →
  truthy (prop b "name") = true →
  truthy (prop b "password") = true →
  truthy (prop b "phone") = true →
  (∀ id u, doc_get "user" id st = Some u →
           u !! "phone" ≠ Some (JStr (ToString (prop b "phone")))) →
  truthy (prop b "plate_number") = true →
  truthy (prop b "car_type") = true →
  ∃ user car st',
    AutoKey.register_rider ukey ckey b st
    = ({| status := 201;
          body := {[ "user" := FObj user; "rider_car" := FObj car ]} |}, st')
    ∧ user !! "id" = Some (JStr ukey)
    ∧ (∃ urec, doc_get "user" ukey st' = Some urec
               ∧ urec !! "role" = Some (JNum (NInt 1)))
    ∧ (∃ crec, doc_get "rider_car" ckey st' = Some crec
               ∧ crec !! "user_id" = Some (JStr ukey)
               ∧ crec !! "plate_number"
                 = Some (JStr (ToString (prop b "plate_number")))).
Proof.
  intros Hkey Hn Hp Hph Hfresh Hplate Hcar.
  pose proof (AutoKey_createUser_run ukey (prop b "name") (prop b "password")
                (prop b "phone") (prop b "picture") (JNum (NInt 1)) (NInt 1) st
                Hn Hp Hph eq_refl eq_refl Hfresh) as Hrun.
  simpl in Hrun.
  match type of Hrun with _ = (_, doc_set _ _ ?d _) => set (data := d) in * end.
  assert (prop (spread {[ "id" := JStr ukey ]} data) "id" = JStr ukey) as Hpid.
  { unfold prop. rewrite spread_lookup_l by (by vm_compute).
    by rewrite lookup_singleton_eq. }
  assert (falsy (JStr ukey) || falsy (prop b "plate_number")
          || falsy (prop b "car_type") = false) as Hchk.
  { apply falsy_or3. split; [by apply truthy_JStr | done]. }
  unfold AutoKey.register_rider, bind at 1. rewrite Hrun.
  unfold bind at 1. rewrite Hpid. unfold AutoKey.createRiderCar. rewrite Hchk.
  unfold bind, AutoKey.add_then_get, bind, write, read, ret, AutoKey.RIDER_COL.
  rewrite doc_get_doc_set. simpl.
  do 3 eexists. split; [reflexivity |].
  split; [| split].
  - rewrite spread_lookup_l by (by vm_compute). by rewrite lookup_singleton_eq.
  - exists data. split; [| by vm_compute].
    unfold doc_get. rewrite collection_of_doc_set_ne by done.
    by rewrite collection_of_doc_set, lookup_insert_eq.
  - eexists. split; [apply doc_get_doc_set |]. split; by vm_compute.
Qed.

(** [createUser] is its checks and its guard, then [createUser_store]. *)
Lemma createUser_unfold name password phone picture role :
  IdAlloc.createUser name password phone picture role
  = if falsy name || falsy password || falsy phone
    then throw {| message := "name, password, phone are required";
                  code := Some 400; payload := None |}
    else bind (lift (IdAlloc.normalizeRoleInt role)) (λ roleInt,
         bind (IdAlloc.assertPhoneNotDuplicate phone) (λ _,
         IdAlloc.createUser_store name password phone picture roleInt)).
Proof. reflexivity. Qed.


End Records.

(* ===================================================================== *)
(** ** The further properties on the sample requests *)
(* ===================================================================== *)

Lemma after_alice_reachable : @IdAlloc.reachable decimal_runtime Sample.after_alice.
Proof. apply IdAlloc.reachable_exec, IdAlloc.reachable_empty. Qed.

Lemma after_bob_reachable : @IdAlloc.reachable decimal_runtime Sample.after_bob.
Proof. apply IdAlloc.reachable_exec, after_alice_reachable. Qed.

Lemma after_alice_fresh (phone : string) :
  phone ≠ "0800000001" →
  ∀ id u, doc_get "user" id Sample.after_alice = Some u →
          u !! "phone" ≠ Some (JStr phone).
Proof.
  intros Hne id u. unfold doc_get. rewrite after_alice_users.
  intros [_ <-]%lookup_singleton_Some. vm_compute. congruence.
Qed.

Lemma users_keyed_by_user_id_witness :
  ∃ n, 1 ≤ n ≤ IdAlloc.counter_value "user_seq" Sample.after_bob
       ∧ Sample.bob_record !! "user_id" = Some (JNum (NInt n))
       ∧ "2" = ToString (JNum (NInt n))
       ∧ @ToNumber decimal_runtime (JStr "2") = NInt n.
Proof.
  apply (@users_keyed_by_user_id decimal_runtime Sample.after_bob "2" Sample.bob_record).
  - apply after_bob_reachable.
  - by vm_compute.
Defined.

Lemma users_role_0_or_1_witness :
  Sample.bob_record !! "role" = Some (JNum (NInt 0))
  ∨ Sample.bob_record !! "role" = Some (JNum (NInt 1)).
Proof.
  apply (@users_role_0_or_1 decimal_runtime Sample.after_bob "2" Sample.bob_record).
  - apply after_bob_reachable.
  - by vm_compute.
Defined.

Lemma phones_stay_unique_witness :
  doc_get "user" "2" Sample.after_bob = Some Sample.bob_record
  ∧ Sample.bob_record !! "phone" = Some (JStr "0800000002")
  ∧ "2" = "2".
Proof.
  assert (doc_get "user" "2" Sample.after_bob = Some Sample.bob_record) as Hbob
    by (by vm_compute).
  assert (Sample.bob_record !! "phone" = Some (JStr "0800000002")) as Hphone
    by (by vm_compute).
  split; [exact Hbob | split; [exact Hphone |]].
  apply (@phones_stay_unique decimal_runtime Sample.after_bob "2" "2" Sample.bob_record
           Sample.bob_record "0800000002" after_bob_reachable);
    [done | exact Hbob | exact Hbob | exact Hphone | exact Hphone].
Defined.


Lemma creators_fail_clean_witness :
  (∅ : db) = ∅
  ∧ (code (JsError "name, password, phone are required" (Some 400) None) = Some 400
     ∨ code (JsError "name, password, phone are required" (Some 400) None) = Some 409).
Proof.
  destruct (@creators_fail_clean decimal_runtime ∅ ∅
              (JsError "name, password, phone are required" (Some 400) None))
    as (Huser & _).
  apply (Huser (JStr "A") (JStr "") (JStr "1") JUndefined JUndefined).
  by vm_compute.
Defined.

Lemma register_then_login_witness :
  status (@IdAlloc.login decimal_runtime Sample.alice_login
            (@IdAlloc.register_user decimal_runtime Sample.alice ∅).2).1 = 200
  ∧ status (AutoKey.login Sample.alice_login
              (@AutoKey.register_user decimal_runtime "k1" Sample.alice ∅).2).1 = 200.
Proof.
  destruct (@register_then_login decimal_runtime Sample.alice Sample.alice_login ∅
              eq_refl eq_refl) as [Hcounter Hkeyed].
  split.
  - destruct Hcounter as (id & _ & Hlogin); [by vm_compute |]. by rewrite Hlogin.
  - rewrite (Hkeyed "k1"); [done | by vm_compute].
Defined.

Lemma login_sound_witness :
  ∃ id u,
    doc_get "user" id Sample.after_alice = Some u
    ∧ u !! "phone" = Some (JStr (ToString (prop Sample.alice_login "phone")))
    ∧ ToString (prop u "password") = ToString (prop Sample.alice_login "password")
    ∧ body (@IdAlloc.login decimal_runtime Sample.alice_login Sample.after_alice).1 !! "id"
      = Some (FVal (JStr id))
    ∧ body (AutoKey.login Sample.alice_login Sample.after_alice).1 !! "id"
      = Some (FVal (JStr id)).
Proof.
  destruct (@login_sound decimal_runtime Sample.alice_login Sample.after_alice)
    as (_ & _ & _ & _ & Hok).
  apply Hok. by vm_compute.
Defined.

Lemma register_then_get_witness :
  ∃ id u st',
    @IdAlloc.register_user decimal_runtime Sample.alice ∅
    = ({| status := 201; body := {[ "user" := FObj u ]} |}, st')
    ∧ u !! "id" = Some (JStr id)
    ∧ u !! "password" = Some (JStr (ToString (prop Sample.alice "password")))
    ∧ IdAlloc.get_user id st' = ({| status := 200; body := flat u |}, st')
    ∧ IdAlloc.get_user_by_phone (ToString (prop Sample.alice "phone")) st'
      = ({| status := 200; body := flat u |}, st').
Proof.
  apply (@register_then_get decimal_runtime Sample.alice ∅). by vm_compute.
Defined.

Lemma register_user_decision_witness :
  status (@IdAlloc.register_user decimal_runtime ∅ ∅).1 = 400
  ∧ status (@IdAlloc.register_user decimal_runtime Sample.alice Sample.after_alice).1 = 409
  ∧ status (@IdAlloc.register_user decimal_runtime Sample.bob Sample.after_alice).1 = 201.
Proof.
  split; [| split].
  - destruct (@register_user_decision decimal_runtime ∅ ∅) as (Hmissing & _).
    destruct Hmissing as [Hcounter _]; [left; reflexivity |]. by rewrite Hcounter.
  - destruct (@register_user_decision decimal_runtime Sample.alice Sample.after_alice)
      as (_ & Htaken & _).
    apply Htaken; [reflexivity | reflexivity | reflexivity |].
    exists "1", Sample.alice_record. split; by vm_compute.
  - destruct (@register_user_decision decimal_runtime Sample.bob Sample.after_alice)
      as (_ & _ & Hfree).
    apply Hfree; [reflexivity | reflexivity | reflexivity |].
    by apply after_alice_fresh.
Defined.


Lemma patch_user_effect_witness :
  doc_get "user" "1"
    (@IdAlloc.patch_user decimal_runtime "1" {[ "name" := JStr "Alice" ]}
       Sample.after_bob).2 ≫= (.!! "name") = Some (JStr "Alice")
  ∧ doc_get "user" "1"
      (@IdAlloc.patch_user decimal_runtime "1" {[ "name" := JStr "Alice" ]}
         Sample.after_bob).2 ≫= (.!! "user_id") = Some (JNum (NInt 1))
  ∧ doc_get "user" "2"
      (@IdAlloc.patch_user decimal_runtime "1" {[ "name" := JStr "Alice" ]}
         Sample.after_bob).2 = Some Sample.bob_record.
Proof.
  destruct (@patch_user_effect decimal_runtime "1" {[ "name" := JStr "Alice" ]}
              Sample.after_bob) as (_ & Hothers & Hkept & Hstored & _).
  split; [| split].
  - apply (Hstored ltac:(by vm_compute) "name" (JStr "Alice")).
    + repeat constructor.
    + done.
    + by vm_compute.
  - rewrite (Hkept "user_id"); [by vm_compute |].
    unfold IdAlloc.allowed. rewrite !elem_of_cons, elem_of_nil.
    intros [? | [? | [? | [? | [? | []]]]]]; discriminate.
  - rewrite (Hothers "2") by done. by vm_compute.
Defined.

Lemma patch_user_phone_taken_witness :
  @IdAlloc.patch_user decimal_runtime "2" {[ "phone" := JStr "0800000001" ]}
    Sample.after_bob
  = ({| status := 409; body := error_body "phone already exists" |}, Sample.after_bob).
Proof.
  apply (@patch_user_phone_taken decimal_runtime "2" "1" {[ "phone" := JStr "0800000001" ]}
           Sample.after_bob Sample.bob_record Sample.alice_record "0800000001").
  - apply after_bob_reachable.
  - done.
  - done.
  - by vm_compute.
  - by vm_compute.
  - by vm_compute.
  - by vm_compute.
  - intros role Hrole. by vm_compute in Hrole.
Defined.

Lemma patch_role_check_differs_witness :
  (status (@Inline.patch_user decimal_runtime "1" {[ "role" := JNum (NInt 5) ]}
             Sample.after_alice).1 = 200
   ∧ doc_get "user" "1"
       (@Inline.patch_user decimal_runtime "1" {[ "role" := JNum (NInt 5) ]}
          Sample.after_alice).2 ≫= (.!! "role")
     = Some (JNum (@ToNumber decimal_runtime (JNum (NInt 5)))))
  ∧ @IdAlloc.patch_user decimal_runtime "1" {[ "role" := JNum (NInt 5) ]}
      Sample.after_alice
    = ({| status := 400; body := error_body "role must be 0 or 1" |}, Sample.after_alice).
Proof.
  destruct (@patch_role_check_differs decimal_runtime "1" {[ "role" := JNum (NInt 5) ]}
              Sample.after_alice Sample.alice_record (JNum (NInt 5)))
    as [Hfirst Hcounter]; [by vm_compute | by vm_compute | by vm_compute |].
  split; [exact Hfirst |].
  apply Hcounter; by vm_compute.
Defined.

Lemma duplicate_phone_answers_witness :
  @Inline.post_users decimal_runtime "k1" Sample.alice Sample.after_alice
  = ({| status := 409; body := error_body "phone already exists" |}, Sample.after_alice)
  ∧ ∃ id' u',
      doc_get "user" id' Sample.after_alice = Some u'
      ∧ u' !! "phone" = Some (JStr (ToString (prop Sample.alice "phone")))
      ∧ @AutoKey.post_users decimal_runtime "k1" Sample.alice Sample.after_alice
        = ({| status := 409;
              body := flat {[ "error" := JStr "phone already exists";
                              "id" := JStr id';
                              "phone" := prop u' "phone";
                              "name" := prop u' "name" ]} |}, Sample.after_alice).
Proof.
  apply (@duplicate_phone_answers decimal_runtime "k1" Sample.alice Sample.after_alice
           "1" Sample.alice_record); by vm_compute.
Defined.

Lemma post_user_addresses_spec_witness :
  @AutoKey.post_user_addresses decimal_runtime "a1" "1" ∅ Sample.after_alice
  = ({| status := 400; body := error_body "user_id and address are required" |},
     Sample.after_alice)
  ∧ ∃ stored,
      @AutoKey.post_user_addresses decimal_runtime "a1" "1" Sample.alice_home
        Sample.after_alice
      = ({| status := 201;
            body := {[ "address" := FObj (spread {[ "id" := JStr "a1" ]} stored) ]} |},
         doc_set "user_address" "a1" stored Sample.after_alice)
      ∧ stored !! "user_id" = Some (JStr "1")
      ∧ stored !! "address" = Some (JStr (ToString (prop Sample.alice_home "address")))
      ∧ is_Some (doc_get "user" "1"
                   (doc_set "user_address" "a1" stored Sample.after_alice)).
Proof.
  assert (is_Some (doc_get "user" "1" Sample.after_alice)) as Hthere.
  { exists Sample.alice_record. by vm_compute. }
  split.
  - apply (@post_user_addresses_spec decimal_runtime "a1" "1" ∅ Sample.after_alice);
      [done | exact Hthere | reflexivity].
  - apply (@post_user_addresses_spec decimal_runtime "a1" "1" Sample.alice_home
             Sample.after_alice); [done | exact Hthere | reflexivity].
Defined.

Lemma get_addresses_filter_witness :
  Inline.count (Inline.get_addresses JUndefined Sample.with_home)
  = size (collection_of "user_address" Sample.with_home)
  ∧ spread {[ "address_id" := JStr "a1" ]} Sample.home_record
    ∈ Inline.items (Inline.get_addresses (JStr "1") Sample.with_home).
Proof.
  split.
  - destruct (get_addresses_filter JUndefined Sample.with_home) as (_ & Hall & _).
    by apply Hall.
  - destruct (get_addresses_filter (JStr "1") Sample.with_home) as (_ & _ & Hsome).
    apply Hsome; [reflexivity |].
    exists "a1", Sample.home_record. repeat split; by vm_compute.
Defined.

Lemma post_then_get_addresses_witness :
  is_Some (doc_get "user" (ToString (prop Sample.alice_home "user_id")) Sample.after_alice)
  ∧ ∃ a,
      a ∈ Inline.items
            (Inline.get_addresses (JStr (ToString (prop Sample.alice_home "user_id")))
               (@Inline.post_addresses decimal_runtime "a1" Sample.alice_home
                  Sample.after_alice).2)
      ∧ a !! "address_id" = Some (JStr "a1")
      ∧ a !! "user_id" = Some (JStr (ToString (prop Sample.alice_home "user_id")))
      ∧ a !! "address" = Some (JStr (ToString (prop Sample.alice_home "address"))).
Proof.
  apply (@post_then_get_addresses decimal_runtime "a1" Sample.alice_home
           Sample.after_alice).
  by vm_compute.
Defined.

Lemma register_rider_links_records_witness :
  ∃ n m user car st',
    @IdAlloc.register_rider decimal_runtime Sample.rider Sample.after_alice
    = ({| status := 201;
          body := {[ "user" := FObj user; "rider_car" := FObj car ]} |}, st')
    ∧ user !! "id" = Some (JStr (ToString (JNum (NInt n))))
    ∧ car !! "user_id" = Some (JNum (NInt n))
    ∧ (∃ urec, doc_get "user" (ToString (JNum (NInt n))) st' = Some urec
               ∧ urec !! "user_id" = Some (JNum (NInt n))
               ∧ urec !! "role" = Some (JNum (NInt 1)))
    ∧ (∃ crec, doc_get "rider_car" (ToString (JNum (NInt m))) st' = Some crec
               ∧ crec !! "rider_id" = Some (JNum (NInt m))
               ∧ crec !! "user_id" = Some (JNum (NInt n))
               ∧ crec !! "plate_number"
                 = Some (JStr (ToString (prop Sample.rider "plate_number")))).
Proof.
  apply (@register_rider_links_records decimal_runtime Sample.rider Sample.after_alice);
    try reflexivity.
  - apply after_alice_reachable.
  - by apply after_alice_fresh.
Defined.

Lemma keyed_register_rider_links_records_witness :
  ∃ user car st',
    @AutoKey.register_rider decimal_runtime "u1" "c1" Sample.rider ∅
    = ({| status := 201;
          body := {[ "user" := FObj user; "rider_car" := FObj car ]} |}, st')
    ∧ user !! "id" = Some (JStr "u1")
    ∧ (∃ urec, doc_get "user" "u1" st' = Some urec
               ∧ urec !! "role" = Some (JNum (NInt 1)))
    ∧ (∃ crec, doc_get "rider_car" "c1" st' = Some crec
               ∧ crec !! "user_id" = Some (JStr "u1")
               ∧ crec !! "plate_number"
                 = Some (JStr (ToString (prop Sample.rider "plate_number")))).
Proof.
  apply (@keyed_register_rider_links_records decimal_runtime "u1" "c1" Sample.rider ∅);
    try reflexivity.
  - done.
  - apply empty_has_no_user.
Defined.

